(** * Flow registration resolvers of [prefect_server/graphql/flows.py]

    A shallow embedding of the GraphQL mutation resolvers and of the
    version-group resolution and supersession they implement.  Resolvers
    are programs that issue calls to the flow store (the ORM queries on
    [models.Flow] and the functions of [api.flows] / [api.flow_groups]);
    a handler interprets the calls over a store state and records them. *)

From Stdlib Require Import ZArith Lia Ascii String.
From stdpp Require Import base option list strings gmap.

Open Scope string_scope.
Set Warnings "-register-all".

(** ** Python values *)

(** The values the resolvers handle: [None], booleans, strings and
    dictionaries keyed by strings. *)
Inductive pyval : Type :=
| VNone
| VBool (b : bool)
| VStr (s : string)
| VDict (d : gmap string pyval).

(** Python truthiness, as used by [if x:] and [not x]. *)
Definition truthy (v : pyval) : bool :=
  match v with
  | VNone => false
  | VBool b => b
  | VStr s => negb (String.eqb s "")
  | VDict d => negb (bool_decide (d = ∅))
  end.

(** [v is None] *)
Definition is_none (v : pyval) : bool :=
  match v with VNone => true | _ => false end.

(** Does the value equal the string [s]?  The [_eq] comparison of a
    where-clause against a text column. *)
Definition eq_str (v : pyval) (s : string) : bool :=
  match v with VStr s' => String.eqb s' s | _ => false end.

(** Exceptions raised by the resolvers or by the store. *)
Inductive exn : Type :=
| KeyError (key : string)
| ValueError (msg : string)
| AttributeError (attr : string)
| StoreFailure (msg : string).

(** ** Rows of the [flow] table *)

(** One version of a flow, as the store holds it and as the ORM hands it
    back ([models.Flow]).  [created] is the creation timestamp. *)
Module Flow.

Record t : Type := mk {
  id : string;
  project_id : string;
  name : string;
  version_group_id : string;
  flow_group_id : string;
  archived : bool;
  created : Z
}.

End Flow.

(** ** Calls to the store *)

(** Keyword arguments of [api.flows.create_flow]. *)
Record create_args : Type := mkCreate {
  c_project_id : pyval;
  c_serialized_flow : pyval;
  c_version_group_id : pyval;
  c_set_schedule_active : pyval;
  c_description : pyval;
  c_idempotency_key : pyval
}.

(** Every awaited call of the module, with its arguments. *)
Inductive call : Type :=
(* models.Flow.where({project_id: {_eq}, name: {_eq}})
     .first(order_by={created: desc}) *)
| FlowFirstByProjectName (project name : pyval)
(* models.Flow.where({version_group_id: {_eq}}).first() *)
| FlowFirstByVersionGroup (group : pyval)
(* models.Flow.where({version_group_id: {_eq}, id: {_neq},
                      archived: {_eq: False}}).get({"id"}) *)
| FlowGetOtherUnarchived (group : pyval) (flow : string)
(* models.Flow.where(id=...).first({"flow_group_id"}) *)
| FlowFirstById (flow : pyval)
| ApiCreateFlow (args : create_args)
| ApiArchiveFlow (flow : pyval)
| ApiDeleteFlow (flow : pyval)
| ApiRegisterTasks (flow tasks : pyval)
| ApiRegisterEdges (flow edges : pyval)
| ApiUpdateFlowProject (flow project : pyval)
| ApiSetScheduleActive (flow : pyval)
| ApiSetScheduleInactive (flow : pyval)
| GroupDisableHeartbeat (group : string)
| GroupEnableHeartbeat (group : string)
| GroupEnableLazarus (group : string)
| GroupDisableLazarus (group : string).

(** What each call evaluates to when it does not raise. *)
Definition answer (c : call) : Type :=
  match c with
  | FlowFirstByProjectName _ _ | FlowFirstByVersionGroup _
  | FlowFirstById _ => option Flow.t
  | FlowGetOtherUnarchived _ _ => list Flow.t
  | ApiCreateFlow _ => string
  | ApiUpdateFlowProject _ _ => pyval
  | ApiRegisterTasks _ _ | ApiRegisterEdges _ _ => unit
  | _ => bool
  end.

(** ** Resolver programs *)

(** A resolver returns, raises, or awaits a call and continues with its
    answer. *)
Inductive prog (A : Type) : Type :=
| Ret (a : A)
| Raise (e : exn)
| Await (c : call) (k : answer c -> prog A).
Arguments Ret {A} a.
Arguments Raise {A} e.
Arguments Await {A} c k.

Fixpoint bind {A B : Type} (p : prog A) (f : A -> prog B) : prog B :=
  match p with
  | Ret a => f a
  | Raise e => Raise e
  | Await c k => Await c (fun x => bind (k x) f)
  end.

(** [await c]: issue the call and return its answer. *)
Definition await (c : call) : prog (answer c) := Await c Ret.

Declare Scope prog_scope.
Delimit Scope prog_scope with prog.
Notation "x <- p ;; q" := (bind p (fun x => q))
  (at level 100, p at next level, right associativity) : prog_scope.
Notation "p ;; q" := (bind p (fun _ => q))
  (at level 100, right associativity) : prog_scope.
Open Scope prog_scope.

(** [d[key]]: raises [KeyError] on a missing key. *)
Definition subscript (d : gmap string pyval) (key : string) : prog pyval :=
  match d !! key with
  | Some v => Ret v
  | None => Raise (KeyError key)
  end.

(** [d.get(key, default)] *)
Definition get (d : gmap string pyval) (key : string) (default : pyval)
  : pyval :=
  match d !! key with Some v => v | None => default end.

(** [v.get(key)] on an arbitrary value: only dictionaries have [get]. *)
Definition method_get (v : pyval) (key : string) : prog pyval :=
  match v with
  | VDict d => Ret (get d key VNone)
  | _ => Raise (AttributeError "get")
  end.

(** ** The resolvers *)

(** Lines 36-55 of [resolve_create_flow]: the version group the new flow
    goes to, and whether that group is new ([new_version_group]). *)
Definition resolve_version_group
    (project_id serialized_flow version_group_id : pyval)
  : prog (pyval * bool) :=
  if negb (truthy version_group_id) then
    name <- method_get serialized_flow "name";;
    flow <- await (FlowFirstByProjectName project_id name);;
    match flow with
    | Some flow => Ret (VStr (Flow.version_group_id flow), false)
    | None => Ret (version_group_id, true)
    end
  else
    flow <- await (FlowFirstByVersionGroup version_group_id);;
    match flow with
    | Some _ => Ret (version_group_id, false)
    | None => Ret (version_group_id, true)
    end.

(** Lines 78-79: [for version in ...: await api.flows.archive_flow(version.id)].
    The value [archive_flow] returns is dropped. *)
Fixpoint archive_versions (versions : list Flow.t) : prog unit :=
  match versions with
  | [] => Ret tt
  | version :: rest =>
      _ <- await (ApiArchiveFlow (VStr (Flow.id version)));;
      archive_versions rest
  end.

(** Lines 66-79: archive all other versions. *)
Definition archive_other_versions (version_group_id : pyval)
    (flow_id : string) : prog unit :=
  if truthy version_group_id then
    all_other_unarchived_versions <-
      await (FlowGetOtherUnarchived version_group_id flow_id);;
    archive_versions all_other_unarchived_versions
  else Ret tt.

Definition resolve_create_flow (input : gmap string pyval)
  : prog (gmap string pyval) :=
  serialized_flow <- subscript input "serialized_flow";;
  project_id <- subscript input "project_id";;
  let version_group_id := get input "version_group_id" VNone in
  let set_schedule_active := get input "set_schedule_active" (VBool true) in
  let description := get input "description" VNone in
  let idempotency_key := get input "idempotency_key" VNone in
  if is_none project_id then Raise (ValueError "Invalid project ID")
  else
    resolved <- resolve_version_group project_id serialized_flow
                  version_group_id;;
    let version_group_id := resolved.1 in
    flow_id <- await (ApiCreateFlow
                 {| c_project_id := project_id;
                    c_serialized_flow := serialized_flow;
                    c_version_group_id := version_group_id;
                    c_set_schedule_active := set_schedule_active;
                    c_description := description;
                    c_idempotency_key := idempotency_key |});;
    archive_other_versions version_group_id flow_id;;
    Ret {[ "id" := VStr flow_id ]}.

Definition resolve_register_tasks (input : gmap string pyval)
  : prog (gmap string pyval) :=
  serialized_tasks <- subscript input "serialized_tasks";;
  flow_id <- subscript input "flow_id";;
  if is_none flow_id then Raise (ValueError "Invalid flow ID")
  else
    _ <- await (ApiRegisterTasks flow_id serialized_tasks);;
    Ret {[ "success" := VBool true ]}.

Definition resolve_register_edges (input : gmap string pyval)
  : prog (gmap string pyval) :=
  serialized_edges <- subscript input "serialized_edges";;
  flow_id <- subscript input "flow_id";;
  if is_none flow_id then Raise (ValueError "Invalid flow ID")
  else
    _ <- await (ApiRegisterEdges flow_id serialized_edges);;
    Ret {[ "success" := VBool true ]}.

Definition resolve_delete_flow (input : gmap string pyval)
  : prog (gmap string pyval) :=
  flow_id <- subscript input "flow_id";;
  success <- await (ApiDeleteFlow flow_id);;
  Ret {[ "success" := VBool success ]}.

Definition resolve_archive_flow (input : gmap string pyval)
  : prog (gmap string pyval) :=
  flow_id <- subscript input "flow_id";;
  success <- await (ApiArchiveFlow flow_id);;
  Ret {[ "success" := VBool success ]}.

Definition resolve_update_flow_project (input : gmap string pyval)
  : prog (gmap string pyval) :=
  flow_id <- subscript input "flow_id";;
  project_id <- subscript input "project_id";;
  updated <- await (ApiUpdateFlowProject flow_id project_id);;
  Ret {[ "id" := updated ]}.

Definition resolve_disable_heartbeat_for_flow (input : gmap string pyval)
  : prog (gmap string pyval) :=
  flow_id <- subscript input "flow_id";;
  if negb (truthy flow_id) then Raise (ValueError "Invalid flow ID.")
  else
    flow <- await (FlowFirstById flow_id);;
    match flow with
    | None => Raise (ValueError "Invalid flow ID.")
    | Some flow =>
        success <- await (GroupDisableHeartbeat (Flow.flow_group_id flow));;
        Ret {[ "success" := VBool success ]}
    end.

Definition resolve_enable_heartbeat_for_flow (input : gmap string pyval)
  : prog (gmap string pyval) :=
  flow_id <- subscript input "flow_id";;
  if negb (truthy flow_id) then Raise (ValueError "Invalid flow ID.")
  else
    flow <- await (FlowFirstById flow_id);;
    match flow with
    | None => Raise (ValueError "Invalid flow ID.")
    | Some flow =>
        success <- await (GroupEnableHeartbeat (Flow.flow_group_id flow));;
        Ret {[ "success" := VBool success ]}
    end.

Definition resolve_enable_flow_lazarus_process (input : gmap string pyval)
  : prog (gmap string pyval) :=
  flow_id <- subscript input "flow_id";;
  if negb (truthy flow_id) then Raise (ValueError "Invalid flow ID.")
  else
    flow <- await (FlowFirstById flow_id);;
    match flow with
    | None => Raise (ValueError "Invalid flow ID.")
    | Some flow =>
        success <- await (GroupEnableLazarus (Flow.flow_group_id flow));;
        Ret {[ "success" := VBool success ]}
    end.

Definition resolve_disable_flow_lazarus_process (input : gmap string pyval)
  : prog (gmap string pyval) :=
  flow_id <- subscript input "flow_id";;
  if negb (truthy flow_id) then Raise (ValueError "Invalid flow ID.")
  else
    flow <- await (FlowFirstById flow_id);;
    match flow with
    | None => Raise (ValueError "Invalid flow ID.")
    | Some flow =>
        success <- await (GroupDisableLazarus (Flow.flow_group_id flow));;
        Ret {[ "success" := VBool success ]}
    end.

Definition resolve_set_schedule_active (input : gmap string pyval)
  : prog (gmap string pyval) :=
  flow_id <- subscript input "flow_id";;
  success <- await (ApiSetScheduleActive flow_id);;
  Ret {[ "success" := VBool success ]}.

Definition resolve_set_schedule_inactive (input : gmap string pyval)
  : prog (gmap string pyval) :=
  flow_id <- subscript input "flow_id";;
  success <- await (ApiSetScheduleInactive flow_id);;
  Ret {[ "success" := VBool success ]}.

(** ** Running a resolver against a store *)

Inductive outcome (A : Type) : Type :=
| Ok (a : A)
| Err (e : exn).
Arguments Ok {A} a.
Arguments Err {A} e.

(** What a run leaves behind: how it ended, the store afterwards and the
    calls it issued, oldest first. *)
Record run_result (S A : Type) : Type := mkRun {
  ended : outcome A;
  store_after : S;
  issued : list call
}.
Arguments mkRun {S A} ended store_after issued.
Arguments ended {S A} r.
Arguments store_after {S A} r.
Arguments issued {S A} r.

Section Run.
Context {S : Type}.

(** A store answers each call or raises, and moves to a new state. *)
Definition handler : Type := forall c : call, S -> outcome (answer c) * S.

Variable h : handler.

Fixpoint run {A : Type} (p : prog A) (s : S) : run_result S A :=
  match p with
  | Ret a => mkRun (Ok a) s []
  | Raise e => mkRun (Err e) s []
  | Await c k =>
      match h c s with
      | (Ok x, s') =>
          let r := run (k x) s' in
          mkRun (ended r) (store_after r) (c :: issued r)
      | (Err e, s') => mkRun (Err e) s' [c]
      end
  end.
End Run.

(** ** The flow store *)

(** Modelled from the spec: the store behind [models.Flow] and
    [api.flows] is not part of this module; spec sections 3 and 6 give
    its contract.  The store is the table of flow rows in insertion
    order.  [create] appends an unarchived row stamped with the store's
    clock, under the version group it is handed or, when none is set, under
    a freshly minted one; [archive] sets the [archived] flag of the rows
    with the given id and tells whether there was one.  An archive request
    for an id listed in [unavailable] fails with [StoreFailure].
    Deduplication of retried submissions is the store's (spec section 4.3):
    [submitted] keeps, for every idempotency key a flow was created under,
    the id of that flow; a create call carrying one of these keys is a
    retry, answered with that id without a row being added. *)
Record Store : Type := mkStore {
  flows : list Flow.t;
  clock : Z;
  unavailable : list string;
  submitted : list (string * string)
}.

Definition set_flows (s : Store) (l : list Flow.t) : Store :=
  {| flows := l; clock := clock s; unavailable := unavailable s;
     submitted := submitted s |}.

(** The most recently created row of a list; among rows created at the
    same instant, the one stored first. *)
Fixpoint latest (l : list Flow.t) : option Flow.t :=
  match l with
  | [] => None
  | f :: rest =>
      match latest rest with
      | Some g => if (Flow.created f <? Flow.created g)%Z then Some g
                  else Some f
      | None => Some f
      end
  end.

Definition in_project_named (project name : pyval) (f : Flow.t) : bool :=
  eq_str project (Flow.project_id f) && eq_str name (Flow.name f).

Definition in_group (group : pyval) (f : Flow.t) : bool :=
  eq_str group (Flow.version_group_id f).

Definition other_unarchived (group : pyval) (flow : string) (f : Flow.t)
  : bool :=
  in_group group f && negb (String.eqb (Flow.id f) flow)
  && negb (Flow.archived f).

Definition has_id (flow : pyval) (f : Flow.t) : bool :=
  eq_str flow (Flow.id f).

Fixpoint letters (n : nat) : string :=
  match n with
  | O => ""
  | S n => String "f"%char (letters n)
  end.

(** An identifier that is not in [used] (and is not empty): it is longer
    than every one of them. *)
Definition fresh (used : list string) : string :=
  letters (S (max_list (String.length <$> used))).

Definition as_str (v : pyval) : string :=
  match v with VStr s => s | _ => "" end.

Definition flow_name (serialized_flow : pyval) : string :=
  match serialized_flow with
  | VDict d => as_str (get d "name" VNone)
  | _ => ""
  end.

(** The version group [create] files a flow under. *)
Definition group_for (s : Store) (version_group_id : pyval) : string :=
  match version_group_id with
  | VStr g =>
      if String.eqb g "" then fresh (Flow.version_group_id <$> flows s)
      else g
  | _ => fresh (Flow.version_group_id <$> flows s)
  end.

Definition new_flow (s : Store) (args : create_args) : Flow.t :=
  let group := group_for s (c_version_group_id args) in
  {| Flow.id := fresh (Flow.id <$> flows s);
     Flow.project_id := as_str (c_project_id args);
     Flow.name := flow_name (c_serialized_flow args);
     Flow.version_group_id := group;
     Flow.flow_group_id := group;
     Flow.archived := false;
     Flow.created := clock s |}.

(** The flow an earlier create call made under the idempotency key, if the
    key is a string the store has seen. *)
Definition retried (s : Store) (idempotency_key : pyval) : option string :=
  match idempotency_key with
  | VStr key =>
      snd <$> List.find (fun e => String.eqb e.1 key) (submitted s)
  | _ => None
  end.

(** The keys on record once a flow was created under [idempotency_key]. *)
Definition record_key (s : Store) (idempotency_key : pyval) (flow : string)
  : list (string * string) :=
  match idempotency_key with
  | VStr key => (key, flow) :: submitted s
  | _ => submitted s
  end.

(** The create operation of the store: a retry is answered with the flow
    on record and nothing changes; otherwise the new flow is appended, the
    clock advances and the key, if any, goes on record. *)
Definition create (args : create_args) (s : Store)
  : outcome string * Store :=
  match retried s (c_idempotency_key args) with
  | Some flow => (Ok flow, s)
  | None =>
      (Ok (Flow.id (new_flow s args)),
       {| flows := flows s ++ [new_flow s args];
          clock := (clock s + 1)%Z;
          unavailable := unavailable s;
          submitted :=
            record_key s (c_idempotency_key args)
              (Flow.id (new_flow s args)) |})
  end.

Definition set_archived (f : Flow.t) : Flow.t :=
  {| Flow.id := Flow.id f;
     Flow.project_id := Flow.project_id f;
     Flow.name := Flow.name f;
     Flow.version_group_id := Flow.version_group_id f;
     Flow.flow_group_id := Flow.flow_group_id f;
     Flow.archived := true;
     Flow.created := Flow.created f |}.

Definition set_project (project : string) (f : Flow.t) : Flow.t :=
  {| Flow.id := Flow.id f;
     Flow.project_id := project;
     Flow.name := Flow.name f;
     Flow.version_group_id := Flow.version_group_id f;
     Flow.flow_group_id := Flow.flow_group_id f;
     Flow.archived := Flow.archived f;
     Flow.created := Flow.created f |}.

(** Apply [g] to the rows with the given id. *)
Definition update_flow (flow : pyval) (g : Flow.t -> Flow.t)
    (l : list Flow.t) : list Flow.t :=
  (fun f => if has_id flow f then g f else f) <$> l.

Definition archive (flow : pyval) (s : Store) : outcome bool * Store :=
  if existsb (eq_str flow) (unavailable s)
  then (Err (StoreFailure "archive"), s)
  else (Ok (existsb (has_id flow) (flows s)),
        set_flows s (update_flow flow set_archived (flows s))).

(** The calls outside the contract of spec section 6 act on tables this
    model does not hold (tasks, edges, schedules, flow-group settings):
    they leave the flow table as it is. *)
Definition store_handler : @handler Store :=
  fun c =>
    match c return Store -> outcome (answer c) * Store with
    | FlowFirstByProjectName project name => fun s =>
        (Ok (latest (List.filter (in_project_named project name) (flows s))),
         s)
    | FlowFirstByVersionGroup group => fun s =>
        (Ok (head (List.filter (in_group group) (flows s))), s)
    | FlowGetOtherUnarchived group flow => fun s =>
        (Ok (List.filter (other_unarchived group flow) (flows s)), s)
    | FlowFirstById flow => fun s =>
        (Ok (head (List.filter (has_id flow) (flows s))), s)
    | ApiCreateFlow args => create args
    | ApiArchiveFlow flow => archive flow
    | ApiDeleteFlow flow => fun s =>
        (Ok (existsb (has_id flow) (flows s)),
         set_flows s (List.filter (fun f => negb (has_id flow f)) (flows s)))
    | ApiUpdateFlowProject flow project => fun s =>
        (Ok flow,
         set_flows s (update_flow flow (set_project (as_str project))
                        (flows s)))
    | ApiRegisterTasks _ _ | ApiRegisterEdges _ _ => fun s => (Ok tt, s)
    | ApiSetScheduleActive _ | ApiSetScheduleInactive _
    | GroupDisableHeartbeat _ | GroupEnableHeartbeat _
    | GroupEnableLazarus _ | GroupDisableLazarus _ => fun s => (Ok true, s)
    end.

(** The flow table after the archive requests for [versions], in order. *)
Definition archive_all (versions : list Flow.t) (l : list Flow.t)
  : list Flow.t :=
  foldl (fun l version => update_flow (VStr (Flow.id version)) set_archived l)
    l versions.

(** Is the id of [f] the id of one of [versions]? *)
Definition listed (versions : list Flow.t) (f : Flow.t) : bool :=
  existsb (fun version => String.eqb (Flow.id version) (Flow.id f)) versions.


(** The calls of the resolution step. *)
Definition is_lookup (c : call) : bool :=
  match c with
  | FlowFirstByProjectName _ _ | FlowFirstByVersionGroup _ => true
  | _ => false
  end.

(** The archive call the loop issues for a version. *)
Definition archive_call (f : Flow.t) : call :=
  ApiArchiveFlow (VStr (Flow.id f)).

(** ** Sample stores and requests *)

(** The scenario store of the spec: project [P1] holds the unarchived flow
    [F1] named [etl] in version group [G1]. *)
Definition F1 : Flow.t :=
  {| Flow.id := "F1"; Flow.project_id := "P1"; Flow.name := "etl";
     Flow.version_group_id := "G1"; Flow.flow_group_id := "G1";
     Flow.archived := false; Flow.created := 1 |}.

Definition scenario_store : Store :=
  {| flows := [F1]; clock := 2; unavailable := []; submitted := [] |}.

Definition etl_submission : gmap string pyval :=
  {[ "serialized_flow" := VDict {[ "name" := VStr "etl" ]};
     "project_id" := VStr "P1" ]}.

Definition empty_store : Store :=
  {| flows := []; clock := 0; unavailable := []; submitted := [] |}.

Definition blank_group_submission : gmap string pyval :=
  <[ "version_group_id" := VStr "" ]> etl_submission.

Definition lone_group_submission : gmap string pyval :=
  <[ "version_group_id" := VStr "G-unknown" ]> etl_submission.

(** Version group [G1] with two unarchived flows; the store fails archive
    requests for [F1]. *)
Definition F2 : Flow.t :=
  {| Flow.id := "F2"; Flow.project_id := "P1"; Flow.name := "etl";
     Flow.version_group_id := "G1"; Flow.flow_group_id := "G1";
     Flow.archived := false; Flow.created := 2 |}.

Definition faulty_store : Store :=
  {| flows := [F1; F2]; clock := 3; unavailable := ["F1"];
     submitted := [] |}.

Definition blank_project_submission : gmap string pyval :=
  {[ "serialized_flow" := VDict {[ "name" := VStr "etl" ]};
     "project_id" := VStr "" ]}.

Definition null_project_submission : gmap string pyval :=
  {[ "serialized_flow" := VDict {[ "name" := VStr "etl" ]};
     "project_id" := VNone ]}.


(** ** The compressed-input resolver *)

(** [TypeError] is raised by [resolve_create_flow_from_compressed_string]
    alone, before any awaiting: the resolver either raises it or goes on as
    the program [p]. *)
Inductive raising (A : Type) : Type :=
| TypeError (msg : string)
| Proceeds (p : prog A).
Arguments TypeError {A} msg.
Arguments Proceeds {A} p.

Section Compressed.

(** [decompress] comes from the [prefect] library and is a parameter here;
    [None] stands for any exception it raises. *)
Variable decompress : pyval -> option pyval.

(** The bare [except:] of line 16 also catches the [KeyError] of a missing
    [serialized_flow] key.  Line 18 stores the decompressed flow under the
    same key of the input. *)
Definition resolve_create_flow_from_compressed_string
    (input : gmap string pyval) : raising (gmap string pyval) :=
  match input !! "serialized_flow" ≫= decompress with
  | Some serialized_flow =>
      Proceeds
        (resolve_create_flow (<[ "serialized_flow" := serialized_flow ]> input))
  | None => TypeError "Unable to decompress serialized flow"
  end.

End Compressed.

(** ** Shapes of runs *)

(** The calls of a registration that runs to its end. *)
Definition registration_calls (lookup : call) (args : create_args)
    (flow_id : string) (versions : list Flow.t) : list call :=
  lookup :: ApiCreateFlow args
  :: FlowGetOtherUnarchived (c_version_group_id args) flow_id
  :: (archive_call <$> versions).

(** Rows are the same up to the [archived] flag having been set. *)
Definition archived_or_same (f f' : Flow.t) : Prop :=
  f' = f \/ f' = set_archived f.

(** A store that fails every call. *)
Definition unreachable_store : @handler unit :=
  fun c s => (Err (StoreFailure "unreachable"), s).

(** The flow store, with a create call that fails. *)
Definition refusing_create : @handler Store :=
  fun c =>
    match c as c0 return Store -> outcome (answer c0) * Store with
    | ApiCreateFlow _ => fun s => (Err (StoreFailure "create"), s)
    | c' => store_handler c'
    end.

(** * Properties *)

(** ** The interpreter *)

Section RunFacts.
Context {S : Type} (h : @handler S).

Lemma run_bind {A B : Type} (p : prog A) (f : A -> prog B) (s : S) :
  run h (bind p f) s =
  match ended (run h p s) with
  | Ok a =>
      let r := run h (f a) (store_after (run h p s)) in
      mkRun (ended r) (store_after r) (issued (run h p s) ++ issued r)
  | Err e => mkRun (Err e) (store_after (run h p s)) (issued (run h p s))
  end.
Proof.
  revert s. induction p as [a|e|c k IH]; intros s; simpl.
  - by destruct (run h (f a) s).
  - done.
  - destruct (h c s) as [[x|e] s']; simpl; [|done].
    rewrite IH. by destruct (ended (run h (k x) s')).
Qed.
End RunFacts.

(** ** The scenarios of the spec *)

Example scenario_etl :
  run store_handler (resolve_create_flow etl_submission) scenario_store =
  mkRun (Ok {[ "id" := VStr "fff" ]})
    {| flows := [set_archived F1;
                 {| Flow.id := "fff"; Flow.project_id := "P1";
                    Flow.name := "etl"; Flow.version_group_id := "G1";
                    Flow.flow_group_id := "G1"; Flow.archived := false;
                    Flow.created := 2 |}];
       clock := 3; unavailable := []; submitted := [] |}
    [FlowFirstByProjectName (VStr "P1") (VStr "etl");
     ApiCreateFlow
       {| c_project_id := VStr "P1";
          c_serialized_flow := VDict {[ "name" := VStr "etl" ]};
          c_version_group_id := VStr "G1";
          c_set_schedule_active := VBool true;
          c_description := VNone;
          c_idempotency_key := VNone |};
     FlowGetOtherUnarchived (VStr "G1") "fff";
     ApiArchiveFlow (VStr "F1")].
Proof. vm_compute. reflexivity. Qed.

Example scenario_new_flow :
  let r := run store_handler
             (resolve_create_flow
                {[ "serialized_flow" := VDict {[ "name" := VStr "new-flow" ]};
                   "project_id" := VStr "P1" ]})
             scenario_store in
  ended (run store_handler
           (resolve_version_group (VStr "P1")
              (VDict {[ "name" := VStr "new-flow" ]}) VNone)
           scenario_store) = Ok (VNone, true) /\
  ended r = Ok {[ "id" := VStr "fff" ]} /\
  (Flow.archived <$> flows (store_after r)) = [false; false] /\
  length (issued r) = 2.
Proof. vm_compute. done. Qed.

Example scenario_unknown_group :
  ended (run store_handler
           (resolve_version_group (VStr "P1")
              (VDict {[ "name" := VStr "etl" ]}) (VStr "G-unknown"))
           scenario_store) = Ok (VStr "G-unknown", true).
Proof. vm_compute. done. Qed.

(** ** Validation of the project id *)

(** C4, as stated, fails: a submission whose [project_id] is the empty
    string passes the [is None] test of line 31; the name lookup and the
    create call are issued and the call succeeds. *)
Lemma create_flow_blank_project_reaches_store :
  let r := run store_handler (resolve_create_flow blank_project_submission)
             empty_store in
  ended r = Ok {[ "id" := VStr "f" ]} /\
  issued r =
    [FlowFirstByProjectName (VStr "") (VStr "etl");
     ApiCreateFlow
       {| c_project_id := VStr "";
          c_serialized_flow := VDict {[ "name" := VStr "etl" ]};
          c_version_group_id := VNone;
          c_set_schedule_active := VBool true;
          c_description := VNone;
          c_idempotency_key := VNone |}] /\
  length (flows (store_after r)) = 1.
Proof. vm_compute. done. Qed.

(** C4, amended: when [project_id] is [None] or the key is missing,
    [resolve_create_flow] raises before any call reaches the store, whatever
    the store is: the store is left as it was and nothing is issued.  With
    both keys present and [project_id] [None] the exception is
    [ValueError("Invalid project ID")]; a missing key raises [KeyError],
    [serialized_flow] being read first. *)
Theorem create_flow_null_project_fails_first
    {S : Type} (h : @handler S) (s : S) (input : gmap string pyval) :
  input !! "project_id" = None \/ input !! "project_id" = Some VNone ->
  run h (resolve_create_flow input) s =
    mkRun
      (Err match input !! "serialized_flow", input !! "project_id" with
           | None, _ => KeyError "serialized_flow"
           | Some _, None => KeyError "project_id"
           | Some _, Some _ => ValueError "Invalid project ID"
           end)
      s [].
Proof.
  intros Hp. unfold resolve_create_flow, subscript.
  destruct (input !! "serialized_flow") as [sf|]; simpl; [|done].
  by destruct Hp as [-> | ->].
Qed.

Lemma create_flow_null_project_fails_first_witness :
  (null_project_submission !! "project_id" = None \/
   null_project_submission !! "project_id" = Some VNone) /\
  run store_handler (resolve_create_flow null_project_submission)
    scenario_store =
    mkRun (Err (ValueError "Invalid project ID")) scenario_store [].
Proof.
  split; [right; reflexivity|].
  apply (create_flow_null_project_fails_first store_handler scenario_store
           null_project_submission).
  right. reflexivity.
Defined.

(** ** The pass-through resolvers *)

(** C9, as stated, fails: [resolve_delete_flow] has no precondition on
    [flow_id]; with an empty id it issues the delete call all the same and
    wraps what the store answers. *)
Lemma delete_flow_blank_id_is_delegated :
  let r := run store_handler
             (resolve_delete_flow {[ "flow_id" := VStr "" ]})
             scenario_store in
  ended r = Ok {[ "success" := VBool false ]} /\
  issued r = [ApiDeleteFlow (VStr "")].
Proof. vm_compute. done. Qed.

(** C9, amended.  For a request whose [flow_id] key holds [v]:
    - delete, archive and the two schedule toggles check nothing and hand
      [v] to the store call, wrapping its answer as [{success: bool}];
      reassigning the project does the same with [{id: value}];
    - registering tasks or edges rejects only [None] with
      [ValueError("Invalid flow ID")], otherwise calls the store, drops
      its answer and returns [{success: True}];
    - the heartbeat and lazarus toggles reject a falsy [flow_id] with
      [ValueError("Invalid flow ID.")], then look the flow up by id, raise
      the same error when there is none, and otherwise call the flow-group
      operation on the flow's [flow_group_id] and wrap its answer as
      [{success: bool}]. *)
Theorem pass_through_resolvers
    (input : gmap string pyval) (v : pyval) :
  input !! "flow_id" = Some v ->
  let success := fun b : bool =>
    Ret ({[ "success" := VBool b ]} : gmap string pyval) in
  let toggle := fun group : string -> call =>
    fun wrap : forall g, answer (group g) -> prog (gmap string pyval) =>
    if negb (truthy v) then Raise (ValueError "Invalid flow ID.")
    else Await (FlowFirstById v) (fun flow : option Flow.t =>
           match flow with
           | None => Raise (ValueError "Invalid flow ID.")
           | Some flow =>
               Await (group (Flow.flow_group_id flow))
                 (wrap (Flow.flow_group_id flow))
           end) in
  resolve_delete_flow input = Await (ApiDeleteFlow v) success /\
  resolve_archive_flow input = Await (ApiArchiveFlow v) success /\
  resolve_set_schedule_active input =
    Await (ApiSetScheduleActive v) success /\
  resolve_set_schedule_inactive input =
    Await (ApiSetScheduleInactive v) success /\
  resolve_update_flow_project input =
    match input !! "project_id" with
    | None => Raise (KeyError "project_id")
    | Some p =>
        Await (ApiUpdateFlowProject v p)
          (fun updated : pyval => Ret {[ "id" := updated ]})
    end /\
  resolve_register_tasks input =
    match input !! "serialized_tasks" with
    | None => Raise (KeyError "serialized_tasks")
    | Some tasks =>
        if is_none v then Raise (ValueError "Invalid flow ID")
        else Await (ApiRegisterTasks v tasks)
               (fun _ => Ret {[ "success" := VBool true ]})
    end /\
  resolve_register_edges input =
    match input !! "serialized_edges" with
    | None => Raise (KeyError "serialized_edges")
    | Some edges =>
        if is_none v then Raise (ValueError "Invalid flow ID")
        else Await (ApiRegisterEdges v edges)
               (fun _ => Ret {[ "success" := VBool true ]})
    end /\
  resolve_disable_heartbeat_for_flow input =
    toggle GroupDisableHeartbeat (fun _ => success) /\
  resolve_enable_heartbeat_for_flow input =
    toggle GroupEnableHeartbeat (fun _ => success) /\
  resolve_enable_flow_lazarus_process input =
    toggle GroupEnableLazarus (fun _ => success) /\
  resolve_disable_flow_lazarus_process input =
    toggle GroupDisableLazarus (fun _ => success).
Proof.
  intros Hv success toggle. subst success toggle.
  unfold resolve_delete_flow, resolve_archive_flow,
    resolve_set_schedule_active, resolve_set_schedule_inactive,
    resolve_update_flow_project, resolve_register_tasks,
    resolve_register_edges, resolve_disable_heartbeat_for_flow,
    resolve_enable_heartbeat_for_flow, resolve_enable_flow_lazarus_process,
    resolve_disable_flow_lazarus_process, subscript.
  rewrite Hv. simpl.
  repeat split; try done.
  - by destruct (input !! "project_id").
  - destruct (input !! "serialized_tasks"); simpl; [|done].
    by destruct (is_none v).
  - destruct (input !! "serialized_edges"); simpl; [|done].
    by destruct (is_none v).
Qed.

Lemma pass_through_resolvers_witness :
  ({[ "flow_id" := VStr "F1" ]} : gmap string pyval) !! "flow_id"
    = Some (VStr "F1") /\
  resolve_delete_flow {[ "flow_id" := VStr "F1" ]} =
    Await (ApiDeleteFlow (VStr "F1"))
      (fun b : bool => Ret {[ "success" := VBool b ]}).
Proof.
  split; [reflexivity|].
  apply (pass_through_resolvers {[ "flow_id" := VStr "F1" ]} (VStr "F1")).
  reflexivity.
Defined.

(** ** The shape of a registration *)

(** Past its validation, [resolve_create_flow] is resolution, then the create
    call, then supersession. *)
Lemma resolve_create_flow_steps (input : gmap string pyval)
    (serialized_flow project_id : pyval) :
  input !! "serialized_flow" = Some serialized_flow ->
  input !! "project_id" = Some project_id ->
  is_none project_id = false ->
  resolve_create_flow input =
    (resolved <- resolve_version_group project_id serialized_flow
                   (get input "version_group_id" VNone);;
     flow_id <- await (ApiCreateFlow
                  {| c_project_id := project_id;
                     c_serialized_flow := serialized_flow;
                     c_version_group_id := resolved.1;
                     c_set_schedule_active :=
                       get input "set_schedule_active" (VBool true);
                     c_description := get input "description" VNone;
                     c_idempotency_key :=
                       get input "idempotency_key" VNone |});;
     archive_other_versions resolved.1 flow_id;;
     Ret {[ "id" := VStr flow_id ]}).
Proof.
  intros Hsf Hp Hnone. unfold resolve_create_flow, subscript.
  rewrite Hsf, Hp. simpl. by rewrite Hnone.
Qed.


Section Generic.
Context {S : Type} (h : @handler S).

(** Resolution issues exactly one lookup, and hands on either the
    submitted identifier or, on the name path, the one of the flow the
    lookup found. *)
Lemma run_resolve_version_group (p sf v : pyval) (s : S)
    (g : pyval) (new : bool) :
  ended (run h (resolve_version_group p sf v) s) = Ok (g, new) ->
  (exists c, issued (run h (resolve_version_group p sf v) s) = [c] /\
             is_lookup c = true) /\
  (g = v \/
   truthy v = false /\ new = false /\
   exists f : Flow.t, g = VStr (Flow.version_group_id f)).
Proof.
  unfold resolve_version_group.
  destruct (truthy v) eqn:Hv; simpl.
  - destruct (h (FlowFirstByVersionGroup v) s) as [[[f|]|e] s'];
      simpl; [| |done].
    + intros [= <- <-]. split; [by eexists|by left].
    + intros [= <- <-]. split; [by eexists|by left].
  - destruct sf as [| | |d]; simpl; try done.
    destruct (h (FlowFirstByProjectName p (get d "name" VNone)) s)
      as [[[f|]|e] s']; simpl; [| |done].
    + intros [= <- <-]. split; [by eexists|]. right. by eauto.
    + intros [= <- <-]. split; [by eexists|by left].
Qed.

(** A loop that ran to its end asked for every version, in order. *)
Lemma run_archive_versions_ok (l : list Flow.t) (s : S) (u : unit) :
  ended (run h (archive_versions l) s) = Ok u ->
  issued (run h (archive_versions l) s) = archive_call <$> l.
Proof.
  revert s. induction l as [|f l IH]; intros s; simpl; [done|].
  destruct (h (ApiArchiveFlow (VStr (Flow.id f))) s) as [[b|e] s'];
    simpl; [|done].
  intros Hok. f_equal. by apply IH.
Qed.

Lemma run_archive_other_versions_ok (g : pyval) (fid : string) (s : S)
    (u : unit) :
  ended (run h (archive_other_versions g fid) s) = Ok u ->
  issued (run h (archive_other_versions g fid) s) =
    if truthy g
    then FlowGetOtherUnarchived g fid ::
         (archive_call <$>
            match h (FlowGetOtherUnarchived g fid) s with
            | (Ok versions, _) => versions
            | (Err _, _) => []
            end)
    else [].
Proof.
  unfold archive_other_versions. destruct (truthy g); [|done]. simpl.
  destruct (h (FlowGetOtherUnarchived g fid) s) as [[l|e] s'];
    simpl; [|done].
  intros Hok. f_equal. by eapply run_archive_versions_ok.
Qed.
End Generic.

(** ** Supersession after the create call *)

(** C3, as stated, fails: [api.flows.create_flow] answers with the flow id
    alone, and a version group minted by the store never reaches the
    resolver.  Registering [etl] in an empty store files the new flow [f]
    under the minted group [f], and no supersession query is issued. *)
Lemma create_flow_minted_group_not_superseded :
  let r := run store_handler (resolve_create_flow etl_submission)
             empty_store in
  (forall args, answer (ApiCreateFlow args) = string) /\
  ended r = Ok {[ "id" := VStr "f" ]} /\
  (Flow.version_group_id <$> flows (store_after r)) = ["f"] /\
  issued r =
    [FlowFirstByProjectName (VStr "P1") (VStr "etl");
     ApiCreateFlow
       {| c_project_id := VStr "P1";
          c_serialized_flow := VDict {[ "name" := VStr "etl" ]};
          c_version_group_id := VNone;
          c_set_schedule_active := VBool true;
          c_description := VNone;
          c_idempotency_key := VNone |}] /\
  ~ In (FlowGetOtherUnarchived (VStr "f") "f") (issued r).
Proof.
  vm_compute. repeat split; try done.
  intros [H|[H|[]]]; discriminate H.
Qed.

(** ** A falsy version group id *)

(** C10, as stated, fails: when no flow of the project has the submitted
    name, an empty [version_group_id] stays in the local variable and is
    handed to the create call as its [version_group_id] argument, where an
    unset one hands [None]. *)
Lemma create_flow_blank_group_reaches_create :
  let r := run store_handler (resolve_create_flow blank_group_submission)
             empty_store in
  let r0 := run store_handler (resolve_create_flow etl_submission)
              empty_store in
  issued r =
    [FlowFirstByProjectName (VStr "P1") (VStr "etl");
     ApiCreateFlow
       {| c_project_id := VStr "P1";
          c_serialized_flow := VDict {[ "name" := VStr "etl" ]};
          c_version_group_id := VStr "";
          c_set_schedule_active := VBool true;
          c_description := VNone;
          c_idempotency_key := VNone |}] /\
  issued r0 =
    [FlowFirstByProjectName (VStr "P1") (VStr "etl");
     ApiCreateFlow
       {| c_project_id := VStr "P1";
          c_serialized_flow := VDict {[ "name" := VStr "etl" ]};
          c_version_group_id := VNone;
          c_set_schedule_active := VBool true;
          c_description := VNone;
          c_idempotency_key := VNone |}] /\
  issued r <> issued r0.
Proof.
  vm_compute. repeat split. intros H. discriminate H.
Qed.

(** C10, amended: a falsy [version_group_id] [v] (empty string, [None],
    [False], empty dictionary) makes resolution take the name-and-project
    lookup, exactly as an unset one does: the same calls are issued, none of
    them the version-group existence check, and the store ends the same.
    When the lookup finds a flow, that flow's group is reused in both
    cases; when it finds none, the group stays [v] itself (not [None]) and
    the group counts as new.  [v] is never used for supersession. *)
Theorem falsy_version_group_takes_name_path
    {S : Type} (h : @handler S) (s : S) (p sf v : pyval) :
  truthy v = false ->
  let r := run h (resolve_version_group p sf v) s in
  let r0 := run h (resolve_version_group p sf VNone) s in
  issued r = issued r0 /\
  store_after r = store_after r0 /\
  (forall g, ~ In (FlowFirstByVersionGroup g) (issued r)) /\
  ended r = match ended r0 with
            | Ok (g, new) => Ok (if new then v else g, new)
            | Err e => Err e
            end /\
  forall flow_id, archive_other_versions v flow_id = Ret tt.
Proof.
  intros Hv. unfold resolve_version_group, archive_other_versions.
  rewrite Hv. simpl.
  destruct sf as [| | |d]; simpl; try (repeat split; try done; by intros g []).
  destruct (h (FlowFirstByProjectName p (get d "name" VNone)) s)
    as [[[f|]|e] s']; simpl; repeat split; try done;
    intros g [H|[]]; discriminate H.
Qed.

Lemma falsy_version_group_takes_name_path_witness :
  truthy (VStr "") = false /\
  let r := run store_handler
             (resolve_version_group (VStr "P1")
                (VDict {[ "name" := VStr "etl" ]}) (VStr ""))
             scenario_store in
  let r0 := run store_handler
              (resolve_version_group (VStr "P1")
                 (VDict {[ "name" := VStr "etl" ]}) VNone)
              scenario_store in
  issued r = issued r0 /\
  store_after r = store_after r0 /\
  (forall g, ~ In (FlowFirstByVersionGroup g) (issued r)) /\
  ended r = match ended r0 with
            | Ok (g, new) => Ok (if new then VStr "" else g, new)
            | Err e => Err e
            end /\
  forall flow_id, archive_other_versions (VStr "") flow_id = Ret tt.
Proof.
  split; [reflexivity|].
  apply (falsy_version_group_takes_name_path store_handler scenario_store
           (VStr "P1") (VDict {[ "name" := VStr "etl" ]}) (VStr "")).
  reflexivity.
Defined.

(** ** The store model *)

Lemma eq_str_VStr (a b : string) : eq_str (VStr a) b = true <-> a = b.
Proof. simpl. apply String.eqb_eq. Qed.



Lemma fresh_not_blank (used : list string) : fresh used <> "".
Proof. done. Qed.

Lemma latest_none (l : list Flow.t) : latest l = None -> l = [].
Proof.
  destruct l as [|f l]; [done|]. simpl.
  destruct (latest l) as [g|]; [|done].
  by destruct (Flow.created f <? Flow.created g)%Z.
Qed.

Lemma latest_some (l : list Flow.t) (g : Flow.t) :
  latest l = Some g ->
  In g l /\ forall f, In f l -> (Flow.created f <= Flow.created g)%Z.
Proof.
  revert g. induction l as [|f l IH]; intros g; simpl; [done|].
  destruct (latest l) as [g'|] eqn:Hl.
  - destruct (IH g' eq_refl) as [Hin Hmax].
    destruct (Flow.created f <? Flow.created g')%Z eqn:Hlt;
      intros [= <-].
    + apply Z.ltb_lt in Hlt. split; [by right|].
      intros f' [<-|Hf']; [lia|by apply Hmax].
    + apply Z.ltb_ge in Hlt. split; [by left|].
      intros f' [<-|Hf']; [lia|]. specialize (Hmax f' Hf'). lia.
  - apply latest_none in Hl as ->. intros [= <-]. split; [by left|].
    intros f' [<-|[]]. lia.
Qed.

Lemma filter_nil_iff {A : Type} (P : A -> bool) (l : list A) :
  List.filter P l = [] <-> forall x, In x l -> P x = false.
Proof.
  induction l as [|a l IH]; simpl; [done|].
  destruct (P a) eqn:Ha.
  - split; [done|]. intros H. specialize (H a (or_introl eq_refl)).
    congruence.
  - rewrite IH. split.
    + intros H x [<-|Hx]; [done|by apply H].
    + intros H x Hx. apply H. by right.
Qed.


Lemma create_cases (s : Store) (args : create_args) :
  exists (flow_id : string) (s2 : Store) (added : list Flow.t),
    store_handler (ApiCreateFlow args) s = (Ok flow_id, s2) /\
    flows s2 = (flows s ++ added)%list /\
    unavailable s2 = unavailable s /\
    (added = [] \/
     added = [new_flow s args] /\ flow_id = Flow.id (new_flow s args)).
Proof.
  simpl. unfold create.
  destruct (retried s (c_idempotency_key args)) as [flow|].
  - exists flow, s, []. rewrite app_nil_r. repeat split. by left.
  - eexists _, _, [new_flow s args]. repeat split. by right.
Qed.

(** Resolution reads the store and leaves it as it is. *)
Lemma resolve_version_group_reads (s : Store) (p sf v : pyval) :
  store_after (run store_handler (resolve_version_group p sf v) s) = s.
Proof.
  unfold resolve_version_group.
  destruct (truthy v); simpl.
  - by destruct (head _).
  - destruct sf; simpl; try done. by destruct (latest _).
Qed.

(** ** Resolution of the version group *)

(** C5: with the version group unset (or falsy) and a flow of the project
    carrying the submitted name, resolution issues the name lookup alone and
    reuses the version group of a matching flow that no other matching flow
    is more recent than; the group is not new. *)
Theorem name_match_reuses_latest_group
    (s : Store) (p v : pyval) (d : gmap string pyval) (f : Flow.t) :
  truthy v = false ->
  In f (flows s) ->
  in_project_named p (get d "name" VNone) f = true ->
  exists g : Flow.t,
    In g (flows s) /\
    in_project_named p (get d "name" VNone) g = true /\
    (forall f', In f' (flows s) ->
       in_project_named p (get d "name" VNone) f' = true ->
       (Flow.created f' <= Flow.created g)%Z) /\
    run store_handler (resolve_version_group p (VDict d) v) s =
      mkRun (Ok (VStr (Flow.version_group_id g), false)) s
        [FlowFirstByProjectName p (get d "name" VNone)].
Proof.
  intros Hv Hin Hmatch. unfold resolve_version_group. rewrite Hv. simpl.
  set (nm := get d "name" VNone) in *.
  destruct (latest (List.filter (in_project_named p nm) (flows s)))
    as [g|] eqn:Hl.
  - apply latest_some in Hl as [Hg Hmax].
    apply filter_In in Hg as [Hg1 Hg2].
    exists g. repeat split; try done.
    intros f' Hf' Hm'. apply Hmax. by apply filter_In.
  - apply latest_none in Hl.
    assert (In f (List.filter (in_project_named p nm) (flows s))) as Hf
      by by apply filter_In.
    rewrite Hl in Hf. destruct Hf.
Qed.

Lemma name_match_reuses_latest_group_witness :
  truthy VNone = false /\
  In F1 (flows scenario_store) /\
  in_project_named (VStr "P1")
    (get {[ "name" := VStr "etl" ]} "name" VNone) F1 = true /\
  exists g : Flow.t,
    In g (flows scenario_store) /\
    in_project_named (VStr "P1")
      (get {[ "name" := VStr "etl" ]} "name" VNone) g = true /\
    (forall f', In f' (flows scenario_store) ->
       in_project_named (VStr "P1")
         (get {[ "name" := VStr "etl" ]} "name" VNone) f' = true ->
       (Flow.created f' <= Flow.created g)%Z) /\
    run store_handler
      (resolve_version_group (VStr "P1")
         (VDict {[ "name" := VStr "etl" ]}) VNone) scenario_store =
      mkRun (Ok (VStr (Flow.version_group_id g), false)) scenario_store
        [FlowFirstByProjectName (VStr "P1")
           (get {[ "name" := VStr "etl" ]} "name" VNone)].
Proof.
  split; [reflexivity|]. split; [left; reflexivity|].
  split; [reflexivity|].
  apply (name_match_reuses_latest_group scenario_store (VStr "P1") VNone
           {[ "name" := VStr "etl" ]} F1).
  - reflexivity.
  - left; reflexivity.
  - reflexivity.
Defined.

(** C6: with a version group [g] set (a non-empty string), resolution
    issues the existence check alone, whatever the project, reads the store
    without changing it and keeps [g]; the group is new exactly when no
    stored flow, of any project, has it, and not new exactly when some flow
    does. *)
Theorem explicit_group_honored (s : Store) (p sf : pyval) (g : string) :
  g <> "" ->
  exists new : bool,
    run store_handler (resolve_version_group p sf (VStr g)) s =
      mkRun (Ok (VStr g, new)) s [FlowFirstByVersionGroup (VStr g)] /\
    (new = true <->
     forall f, In f (flows s) -> Flow.version_group_id f <> g) /\
    (new = false <->
     exists f, In f (flows s) /\ Flow.version_group_id f = g).
Proof.
  intros Hg. unfold resolve_version_group.
  assert (truthy (VStr g) = true) as ->.
  { simpl. apply negb_true_iff. by apply String.eqb_neq. }
  simpl.
  destruct (List.filter (in_group (VStr g)) (flows s)) as [|f l] eqn:Hfl;
    simpl.
  - assert (forall f, In f (flows s) -> Flow.version_group_id f <> g)
      as Hnone.
    { intros f Hin Hf.
      assert (in_group (VStr g) f = false) as Hno
        by (eapply filter_nil_iff; eauto).
      apply not_true_iff_false in Hno. apply Hno. by apply eq_str_VStr. }
    exists true. repeat split; try done.
    intros (f & Hin & Hf). by destruct (Hnone f Hin).
  - assert (In f (List.filter (in_group (VStr g)) (flows s))) as Hin
      by (rewrite Hfl; by left).
    apply filter_In in Hin as [Hin Hf]. apply eq_str_VStr in Hf.
    exists false. repeat split; try done; [|by eauto].
    intros Hnone. by destruct (Hnone f Hin).
Qed.

Lemma explicit_group_honored_witness :
  "G1" <> "" /\
  exists new : bool,
    run store_handler
      (resolve_version_group (VStr "P2") (VDict {[ "name" := VStr "x" ]})
         (VStr "G1")) scenario_store =
      mkRun (Ok (VStr "G1", new)) scenario_store
        [FlowFirstByVersionGroup (VStr "G1")] /\
    (new = true <->
     forall f, In f (flows scenario_store) ->
       Flow.version_group_id f <> "G1") /\
    (new = false <->
     exists f, In f (flows scenario_store) /\
       Flow.version_group_id f = "G1").
Proof.
  split; [discriminate|].
  apply (explicit_group_honored scenario_store (VStr "P2")
           (VDict {[ "name" := VStr "x" ]}) "G1").
  discriminate.
Defined.

(** C7: with the version group unset and no flow of the project carrying
    the submitted name, resolution issues the name lookup, leaves the
    version group unset ([None]) and reports a new group; the create call
    that follows is handed [None], so the identifier is the store's to
    mint, and no supersession call follows it. *)
Theorem unmatched_name_leaves_group_unset
    (s : Store) (input d : gmap string pyval) (p : pyval) :
  input !! "serialized_flow" = Some (VDict d) ->
  input !! "project_id" = Some p ->
  is_none p = false ->
  input !! "version_group_id" = None \/
    input !! "version_group_id" = Some VNone ->
  (forall f, In f (flows s) ->
     in_project_named p (get d "name" VNone) f = false) ->
  run store_handler
    (resolve_version_group p (VDict d) (get input "version_group_id" VNone))
    s =
    mkRun (Ok (VNone, true)) s
      [FlowFirstByProjectName p (get d "name" VNone)] /\
  issued (run store_handler (resolve_create_flow input) s) =
    [FlowFirstByProjectName p (get d "name" VNone);
     ApiCreateFlow
       {| c_project_id := p;
          c_serialized_flow := VDict d;
          c_version_group_id := VNone;
          c_set_schedule_active :=
            get input "set_schedule_active" (VBool true);
          c_description := get input "description" VNone;
          c_idempotency_key := get input "idempotency_key" VNone |}].
Proof.
  intros Hsf Hp Hnone Hv Hno.
  assert (get input "version_group_id" VNone = VNone) as Hget.
  { unfold get. by destruct Hv as [-> | ->]. }
  assert (run store_handler
            (resolve_version_group p (VDict d) VNone) s =
          mkRun (Ok (VNone, true)) s
            [FlowFirstByProjectName p (get d "name" VNone)]) as Hres.
  { unfold resolve_version_group. simpl.
    apply filter_nil_iff in Hno. by rewrite Hno. }
  rewrite (resolve_create_flow_steps input (VDict d) p Hsf Hp Hnone).
  rewrite Hget. split; [done|].
  rewrite run_bind, Hres. simpl. unfold create.
  by destruct (retried s _).
Qed.

Lemma unmatched_name_leaves_group_unset_witness :
  etl_submission !! "serialized_flow" =
    Some (VDict {[ "name" := VStr "etl" ]}) /\
  etl_submission !! "project_id" = Some (VStr "P1") /\
  is_none (VStr "P1") = false /\
  (etl_submission !! "version_group_id" = None \/
   etl_submission !! "version_group_id" = Some VNone) /\
  run store_handler
    (resolve_version_group (VStr "P1") (VDict {[ "name" := VStr "etl" ]})
       (get etl_submission "version_group_id" VNone))
    empty_store =
    mkRun (Ok (VNone, true)) empty_store
      [FlowFirstByProjectName (VStr "P1")
         (get {[ "name" := VStr "etl" ]} "name" VNone)] /\
  issued (run store_handler (resolve_create_flow etl_submission)
            empty_store) =
    [FlowFirstByProjectName (VStr "P1")
       (get {[ "name" := VStr "etl" ]} "name" VNone);
     ApiCreateFlow
       {| c_project_id := VStr "P1";
          c_serialized_flow := VDict {[ "name" := VStr "etl" ]};
          c_version_group_id := VNone;
          c_set_schedule_active :=
            get etl_submission "set_schedule_active" (VBool true);
          c_description := get etl_submission "description" VNone;
          c_idempotency_key :=
            get etl_submission "idempotency_key" VNone |}].
Proof.
  split; [reflexivity|]. split; [reflexivity|]. split; [reflexivity|].
  split; [left; reflexivity|].
  apply (unmatched_name_leaves_group_unset empty_store etl_submission
           {[ "name" := VStr "etl" ]} (VStr "P1")).
  - reflexivity.
  - reflexivity.
  - reflexivity.
  - left; reflexivity.
  - intros f [].
Defined.

(** ** Supersession *)

(** C8: when resolution reports a new version group, the registration
    issues no archive call.  (With a set, unknown group the query for other
    unarchived versions is still issued; it finds none.) *)
Theorem new_group_archives_nothing
    (s : Store) (input : gmap string pyval) (sf p g : pyval) :
  input !! "serialized_flow" = Some sf ->
  input !! "project_id" = Some p ->
  is_none p = false ->
  ended (run store_handler
           (resolve_version_group p sf
              (get input "version_group_id" VNone)) s) = Ok (g, true) ->
  forall flow,
    ~ In (ApiArchiveFlow flow)
        (issued (run store_handler (resolve_create_flow input) s)).
Proof.
  intros Hsf Hp Hnone Hres flow.
  rewrite (resolve_create_flow_steps input sf p Hsf Hp Hnone).
  set (v := get input "version_group_id" VNone) in *.
  rewrite run_bind, Hres, resolve_version_group_reads.
  destruct (run_resolve_version_group store_handler p sf v s g true Hres)
    as [(c & -> & Hc) Hg].
  assert (g = v) as -> by (by destruct Hg as [->|(_ & ? & _)]).
  cbn [fst]. cbn zeta.
  set (args := mkCreate _ _ _ _ _ _).
  destruct (create_cases s args)
    as (fid & s2 & added & Hcreate & Hflows & _ & Hadded).
  cbn [run await bind]. rewrite Hcreate.
  cbn [ended store_after issued]. rewrite run_bind.
  assert (run store_handler (archive_other_versions v fid) s2 =
          mkRun (Ok tt) s2
            (if truthy v then [FlowGetOtherUnarchived v fid] else []))
    as ->.
  { unfold archive_other_versions. destruct (truthy v) eqn:Hv; [|done].
    simpl.
    assert (List.filter (other_unarchived v fid) (flows s2) = [])
      as ->; [|done].
    rewrite Hflows. apply filter_nil_iff. intros f Hf.
    apply in_app_iff in Hf.
    unfold other_unarchived. destruct Hf as [Hf|Hf].
    - assert (in_group v f = false) as ->; [|done].
      revert Hres. unfold resolve_version_group. rewrite Hv. simpl.
      destruct (List.filter (in_group v) (flows s)) as [|f0 l] eqn:Hfl;
        simpl; [|done].
      intros _. eapply filter_nil_iff; eauto.
    - destruct Hadded as [->|[-> ->]]; [destruct Hf|].
      destruct Hf as [<-|[]].
      rewrite String.eqb_refl. simpl. by rewrite andb_false_r. }
  simpl. intros [H|[H|H]].
  - subst c. done.
  - done.
  - rewrite app_nil_r in H. destruct (truthy v); [|done].
    by destruct H as [H|[]].
Qed.

Lemma new_group_archives_nothing_witness :
  lone_group_submission !! "serialized_flow" =
    Some (VDict {[ "name" := VStr "etl" ]}) /\
  lone_group_submission !! "project_id" = Some (VStr "P1") /\
  is_none (VStr "P1") = false /\
  ended (run store_handler
           (resolve_version_group (VStr "P1")
              (VDict {[ "name" := VStr "etl" ]})
              (get lone_group_submission "version_group_id" VNone))
           scenario_store) = Ok (VStr "G-unknown", true) /\
  forall flow,
    ~ In (ApiArchiveFlow flow)
        (issued (run store_handler
                   (resolve_create_flow lone_group_submission)
                   scenario_store)).
Proof.
  split; [reflexivity|]. split; [reflexivity|]. split; [reflexivity|].
  split; [vm_compute; reflexivity|].
  apply (new_group_archives_nothing scenario_store lone_group_submission
           (VDict {[ "name" := VStr "etl" ]}) (VStr "P1")
           (VStr "G-unknown")).
  - reflexivity.
  - reflexivity.
  - reflexivity.
  - vm_compute; reflexivity.
Defined.

(** *** The archive loop on the store *)

Lemma set_flows_same (s : Store) : set_flows s (flows s) = s.
Proof. by destruct s. Qed.

Lemma unavailable_spec (i : string) (u : list string) :
  existsb (eq_str (VStr i)) u = true <-> In i u.
Proof.
  rewrite existsb_exists. split.
  - intros (x & Hx & Heq). apply eq_str_VStr in Heq. by subst.
  - intros Hi. exists i. split; [done|]. by apply eq_str_VStr.
Qed.

(** One archive call of the loop, refused or served. *)
Lemma archive_step (s : Store) (f : Flow.t) :
  archive (VStr (Flow.id f)) s =
  if existsb (eq_str (VStr (Flow.id f))) (unavailable s)
  then (Err (StoreFailure "archive"), s)
  else (Ok (existsb (has_id (VStr (Flow.id f))) (flows s)),
        set_flows s (archive_all [f] (flows s))).
Proof. done. Qed.

Lemma run_archive_versions_served (s : Store) (l : list Flow.t) :
  Forall (fun f => ~ In (Flow.id f) (unavailable s)) l ->
  run store_handler (archive_versions l) s =
    mkRun (Ok tt) (set_flows s (archive_all l (flows s)))
      (archive_call <$> l).
Proof.
  revert s. induction l as [|f l IH]; intros s Hall; simpl.
  - by rewrite set_flows_same.
  - apply Forall_cons in Hall as [Hf Hall].
    rewrite archive_step.
    destruct (existsb _ (unavailable s)) eqn:Hu.
    { apply unavailable_spec in Hu. by destruct Hf. }
    rewrite IH by done. done.
Qed.


Lemma update_flow_keeps (i : string) (l : list Flow.t) (f : Flow.t) :
  In f l -> Flow.id f <> i -> In f (update_flow (VStr i) set_archived l).
Proof.
  intros Hin Hne. unfold update_flow.
  apply list_elem_of_In, list_elem_of_fmap. exists f.
  split; [|by apply list_elem_of_In].
  unfold has_id. simpl.
  destruct (String.eqb i (Flow.id f)) eqn:Heq; [|done].
  apply String.eqb_eq in Heq. by destruct Hne.
Qed.

Lemma archive_all_keeps (versions l : list Flow.t) (f : Flow.t) :
  In f l -> ~ In (Flow.id f) (Flow.id <$> versions) ->
  In f (archive_all versions l).
Proof.
  revert l. induction versions as [|v vs IH]; intros l Hin Hno;
    simpl; [done|].
  apply IH.
  - apply update_flow_keeps; [done|]. intros Heq. apply Hno. by left.
  - intros H. apply Hno. by right.
Qed.

(** C2, as stated, fails: with [F1] and [F2] unarchived in group [G1] and
    the archive request for [F1] failing, registering a new version of
    [etl] raises at [F1]; no archive request is made for [F2], which stays
    unarchived. *)
Lemma archive_failure_abandons_remaining_siblings :
  let r := run store_handler (resolve_create_flow etl_submission)
             faulty_store in
  ended r = Err (StoreFailure "archive") /\
  issued r =
    [FlowFirstByProjectName (VStr "P1") (VStr "etl");
     ApiCreateFlow
       {| c_project_id := VStr "P1";
          c_serialized_flow := VDict {[ "name" := VStr "etl" ]};
          c_version_group_id := VStr "G1";
          c_set_schedule_active := VBool true;
          c_description := VNone;
          c_idempotency_key := VNone |};
     FlowGetOtherUnarchived (VStr "G1") "fff";
     ApiArchiveFlow (VStr "F1")] /\
  ~ In (ApiArchiveFlow (VStr "F2")) (issued r) /\
  ~ In "F2" (unavailable faulty_store) /\
  In F2 (flows (store_after r)) /\
  Flow.archived F2 = false.
Proof.
  vm_compute. repeat split; try done.
  - intros [H|[H|[H|[H|[]]]]]; discriminate H.
  - intros [H|[]]; discriminate H.
  - right; by left.
Qed.

(** C2, amended: the siblings are archived one after the other, in the
    order the query returned them.  The first archive call that raises
    ends the loop and its exception is what the caller gets: the siblings
    before it are archived, no archive call is made for those after it, and
    every flow that is not one of the siblings before it is left as it
    was. *)
Theorem archive_loop_stops_at_first_failure
    (s : Store) (before : list Flow.t) (a : Flow.t) (rest : list Flow.t) :
  Forall (fun f => ~ In (Flow.id f) (unavailable s)) before ->
  In (Flow.id a) (unavailable s) ->
  let r := run store_handler (archive_versions (before ++ a :: rest)) s in
  ended r = Err (StoreFailure "archive") /\
  issued r = archive_call <$> (before ++ [a])%list /\
  store_after r = set_flows s (archive_all before (flows s)) /\
  (forall f, In f (flows s) ->
     ~ In (Flow.id f) (Flow.id <$> before) ->
     In f (flows (store_after r))).
Proof.
  intros Hbefore Ha. simpl.
  assert (run store_handler (archive_versions (before ++ a :: rest)) s =
          mkRun (Err (StoreFailure "archive"))
            (set_flows s (archive_all before (flows s)))
            (archive_call <$> (before ++ [a])%list)) as ->.
  { revert s Hbefore Ha.
    induction before as [|f l IH]; intros s Hbefore Ha; simpl.
    - rewrite archive_step.
      apply unavailable_spec in Ha. rewrite Ha. by rewrite set_flows_same.
    - apply Forall_cons in Hbefore as [Hf Hl].
      rewrite archive_step.
      destruct (existsb _ (unavailable s)) eqn:Hu.
      { apply unavailable_spec in Hu. by destruct Hf. }
      rewrite IH by done. done. }
  simpl. repeat split. intros f Hf Hno. by apply archive_all_keeps.
Qed.

Lemma archive_loop_stops_at_first_failure_witness :
  Forall (fun f => ~ In (Flow.id f) (unavailable faulty_store)) [F2] /\
  In (Flow.id F1) (unavailable faulty_store) /\
  let r := run store_handler (archive_versions ([F2] ++ F1 :: []))
             faulty_store in
  ended r = Err (StoreFailure "archive") /\
  issued r = archive_call <$> ([F2] ++ [F1])%list /\
  store_after r =
    set_flows faulty_store (archive_all [F2] (flows faulty_store)) /\
  (forall f, In f (flows faulty_store) ->
     ~ In (Flow.id f) (Flow.id <$> [F2]) ->
     In f (flows (store_after r))).
Proof.
  assert (Forall (fun f => ~ In (Flow.id f) (unavailable faulty_store))
            [F2]) as H2.
  { constructor; [|constructor]. intros [H|[]]. discriminate H. }
  split; [exact H2|]. split; [left; reflexivity|].
  apply (archive_loop_stops_at_first_failure faulty_store [F2] F1 []).
  - exact H2.
  - left; reflexivity.
Defined.

(** *** One unarchived version per group *)

Lemma archive_all_listed (versions l : list Flow.t) :
  archive_all versions l =
  (fun f => if listed versions f then set_archived f else f) <$> l.
Proof.
  revert l. induction versions as [|v vs IH]; intros l; simpl.
  - by rewrite list_fmap_id.
  - rewrite IH. unfold update_flow. rewrite <- list_fmap_compose.
    apply list_fmap_ext. intros i f _. simpl.
    unfold has_id. simpl.
    destruct (String.eqb (Flow.id v) (Flow.id f)); simpl; [|done].
    by destruct (listed vs (set_archived f)).
Qed.

Lemma listed_spec (versions : list Flow.t) (f : Flow.t) :
  listed versions f = true <-> In (Flow.id f) (Flow.id <$> versions).
Proof.
  unfold listed. rewrite existsb_exists. split.
  - intros (v & Hv & Heq). apply String.eqb_eq in Heq. rewrite <- Heq.
    apply list_elem_of_In, list_elem_of_fmap_2. by apply list_elem_of_In.
  - intros Hin. apply list_elem_of_In, list_elem_of_fmap in Hin
      as (v & Heq & Hv).
    exists v. split; [by apply list_elem_of_In|]. by apply String.eqb_eq.
Qed.



(** * Further properties of the resolvers *)

(** ** Runs of a registration, whatever the store *)

Section Registration.
Context {S : Type} (h : @handler S).

(** A registration past validation, step by step. *)
Lemma run_create_flow_validated (s : S) (input : gmap string pyval)
    (sf p : pyval) :
  input !! "serialized_flow" = Some sf ->
  input !! "project_id" = Some p ->
  is_none p = false ->
  run h (resolve_create_flow input) s =
    let r0 := run h (resolve_version_group p sf
                       (get input "version_group_id" VNone)) s in
    match ended r0 with
    | Ok resolved =>
        let args :=
          {| c_project_id := p;
             c_serialized_flow := sf;
             c_version_group_id := resolved.1;
             c_set_schedule_active :=
               get input "set_schedule_active" (VBool true);
             c_description := get input "description" VNone;
             c_idempotency_key := get input "idempotency_key" VNone |} in
        match h (ApiCreateFlow args) (store_after r0) with
        | (Ok flow_id, s2) =>
            let ra := run h (archive_other_versions resolved.1 flow_id) s2 in
            mkRun
              match ended ra with
              | Ok _ => Ok {[ "id" := VStr flow_id ]}
              | Err e => Err e
              end
              (store_after ra)
              (issued r0 ++ ApiCreateFlow args :: issued ra)
        | (Err e, s2) => mkRun (Err e) s2 (issued r0 ++ [ApiCreateFlow args])
        end
    | Err e => mkRun (Err e) (store_after r0) (issued r0)
    end.
Proof.
  intros Hsf Hp Hnone.
  rewrite (resolve_create_flow_steps input sf p Hsf Hp Hnone).
  rewrite run_bind. cbn zeta.
  destruct (ended (run h (resolve_version_group p sf _) s))
    as [resolved|e]; [|done].
  cbn [run await bind].
  destruct (h (ApiCreateFlow _) _) as [[fid|e] s2]; [|done].
  cbn [ended store_after issued]. rewrite run_bind.
  destruct (ended (run h (archive_other_versions resolved.1 fid) s2));
    [|done].
  cbn. by rewrite app_nil_r.
Qed.

(** A registration that fails validation issues nothing. *)
Lemma run_create_flow_rejected (s : S) (input : gmap string pyval) :
  (forall sf p, input !! "serialized_flow" = Some sf ->
     input !! "project_id" = Some p -> is_none p = true) ->
  issued (run h (resolve_create_flow input) s) = [].
Proof.
  intros Hrej. unfold resolve_create_flow, subscript.
  destruct (input !! "serialized_flow") as [sf|]; [|done].
  destruct (input !! "project_id") as [p|]; [|done]. simpl.
  by rewrite (Hrej sf p).
Qed.

Lemma create_flow_validated_or_rejected (input : gmap string pyval) :
  (exists sf p, input !! "serialized_flow" = Some sf /\
     input !! "project_id" = Some p /\ is_none p = false) \/
  (forall sf p, input !! "serialized_flow" = Some sf ->
     input !! "project_id" = Some p -> is_none p = true).
Proof.
  destruct (input !! "serialized_flow") as [sf|]; [|by right].
  destruct (input !! "project_id") as [p|]; [|by right].
  destruct (is_none p) eqn:Hp.
  - right. by intros ? ? [= <-] [= <-].
  - left. by exists sf, p.
Qed.

(** Resolution issues one lookup or, failing before it, nothing. *)
Lemma issued_resolve_version_group (p sf v : pyval) (s : S) :
  issued (run h (resolve_version_group p sf v) s) = [] \/
  exists c, issued (run h (resolve_version_group p sf v) s) = [c] /\
            is_lookup c = true.
Proof.
  unfold resolve_version_group. destruct (truthy v); simpl.
  - right. destruct (h (FlowFirstByVersionGroup v) s) as [[[f|]|e] s'];
      simpl; by eexists.
  - destruct sf as [| | |d]; simpl; try by left.
    right.
    destruct (h (FlowFirstByProjectName p (get d "name" VNone)) s)
      as [[[f|]|e] s']; simpl; by eexists.
Qed.

(** The archive loop asks for the versions in order, as far as it gets. *)
Lemma issued_archive_versions (l : list Flow.t) (s : S) :
  issued (run h (archive_versions l) s) `prefix_of` (archive_call <$> l).
Proof.
  revert s. induction l as [|f l IH]; intros s; simpl; [done|].
  destruct (h (ApiArchiveFlow (VStr (Flow.id f))) s) as [[b|e] s'];
    simpl.
  - apply prefix_cons, IH.
  - apply prefix_cons, prefix_nil.
Qed.

Lemma issued_archive_other_versions (g : pyval) (fid : string) (s : S) :
  exists versions,
    issued (run h (archive_other_versions g fid) s) `prefix_of`
      (FlowGetOtherUnarchived g fid :: (archive_call <$> versions)).
Proof.
  unfold archive_other_versions. destruct (truthy g); simpl.
  - destruct (h (FlowGetOtherUnarchived g fid) s) as [[l|e] s']; simpl.
    + exists l. apply prefix_cons, issued_archive_versions.
    + exists []. done.
  - exists []. apply prefix_nil.
Qed.

End Registration.

(** X1: whenever a registration issues the create call, the call carries
    [project_id] and [serialized_flow] as the submission has them (the
    project id not [None]), [description] and [idempotency_key] as
    submitted or [None] when the key is missing, and
    [set_schedule_active] as submitted or [True] when the key is
    missing. *)
Theorem create_call_carries_submission
    {S : Type} (h : @handler S) (s : S) (input : gmap string pyval)
    (args : create_args) :
  In (ApiCreateFlow args) (issued (run h (resolve_create_flow input) s)) ->
  input !! "project_id" = Some (c_project_id args) /\
  is_none (c_project_id args) = false /\
  input !! "serialized_flow" = Some (c_serialized_flow args) /\
  c_set_schedule_active args =
    get input "set_schedule_active" (VBool true) /\
  c_description args = get input "description" VNone /\
  c_idempotency_key args = get input "idempotency_key" VNone.
Proof.
  destruct (create_flow_validated_or_rejected input)
    as [(sf & p & Hsf & Hp & Hnone)|Hrej].
  2: { rewrite (run_create_flow_rejected h s input Hrej). by intros []. }
  rewrite (run_create_flow_validated h s input sf p Hsf Hp Hnone).
  cbn zeta.
  set (r0 := run h (resolve_version_group p sf _) s).
  assert (~ In (ApiCreateFlow args) (issued r0)) as Hr0.
  { destruct (issued_resolve_version_group h p sf
                (get input "version_group_id" VNone) s)
      as [Hnil|(c & Hc & Hlook)]; fold r0 in Hnil || fold r0 in Hc.
    - rewrite Hnil. by intros [].
    - rewrite Hc. intros [->|[]]. done. }
  destruct (ended r0) as [resolved|e]; [|done].
  set (args0 := mkCreate _ _ _ _ _ _).
  assert (ApiCreateFlow args0 = ApiCreateFlow args ->
          input !! "project_id" = Some (c_project_id args) /\
          is_none (c_project_id args) = false /\
          input !! "serialized_flow" = Some (c_serialized_flow args) /\
          c_set_schedule_active args =
            get input "set_schedule_active" (VBool true) /\
          c_description args = get input "description" VNone /\
          c_idempotency_key args = get input "idempotency_key" VNone)
    as Hsame.
  { intros [= <-]. done. }
  destruct (h (ApiCreateFlow args0) (store_after r0)) as [[fid|e] s2];
    cbn [issued]; intros Hin; apply in_app_iff in Hin as [Hin|Hin];
    try done.
  - destruct Hin as [Heq|Hin]; [by apply Hsame|].
    destruct (issued_archive_other_versions h resolved.1 fid s2)
      as (versions & k & Hk).
    assert (In (ApiCreateFlow args)
              (FlowGetOtherUnarchived resolved.1 fid
               :: (archive_call <$> versions))) as [H|H].
    { rewrite Hk. apply in_app_iff. by left. }
    + done.
    + apply list_elem_of_In, list_elem_of_fmap in H as (f & Hf & _). done.
  - destruct Hin as [Heq|[]]. by apply Hsame.
Qed.

Lemma create_call_carries_submission_witness :
  In (ApiCreateFlow
        {| c_project_id := VStr "P1";
           c_serialized_flow := VDict {[ "name" := VStr "etl" ]};
           c_version_group_id := VStr "G1";
           c_set_schedule_active := VBool true;
           c_description := VNone;
           c_idempotency_key := VNone |})
     (issued (run store_handler (resolve_create_flow etl_submission)
                scenario_store)) /\
  etl_submission !! "project_id" = Some (VStr "P1") /\
  is_none (VStr "P1") = false /\
  etl_submission !! "serialized_flow" =
    Some (VDict {[ "name" := VStr "etl" ]}) /\
  VBool true = get etl_submission "set_schedule_active" (VBool true) /\
  VNone = get etl_submission "description" VNone /\
  VNone = get etl_submission "idempotency_key" VNone.
Proof.
  assert (In (ApiCreateFlow
                {| c_project_id := VStr "P1";
                   c_serialized_flow := VDict {[ "name" := VStr "etl" ]};
                   c_version_group_id := VStr "G1";
                   c_set_schedule_active := VBool true;
                   c_description := VNone;
                   c_idempotency_key := VNone |})
            (issued (run store_handler (resolve_create_flow etl_submission)
                       scenario_store))) as Hin.
  { vm_compute. right. left. reflexivity. }
  split; [exact Hin|].
  exact (create_call_carries_submission store_handler scenario_store
           etl_submission _ Hin).
Defined.

(** X2: in every run, failed or not, the calls a registration issues are
    an initial part of: one lookup, the create call, the query for the other
    unarchived versions of the group handed to create, and archive calls
    for versions.  It issues no other call, and each of the first three at
    most once. *)
Theorem create_flow_call_sequence
    {S : Type} (h : @handler S) (s : S) (input : gmap string pyval) :
  exists (lookup : call) (args : create_args) (flow_id : string)
         (versions : list Flow.t),
    is_lookup lookup = true /\
    issued (run h (resolve_create_flow input) s) `prefix_of`
      registration_calls lookup args flow_id versions.
Proof.
  set (none := mkCreate VNone VNone VNone VNone VNone VNone).
  destruct (create_flow_validated_or_rejected input)
    as [(sf & p & Hsf & Hp & Hnone)|Hrej].
  2: { exists (FlowFirstByVersionGroup VNone), none, "", [].
       rewrite (run_create_flow_rejected h s input Hrej).
       split; [done|apply prefix_nil]. }
  rewrite (run_create_flow_validated h s input sf p Hsf Hp Hnone).
  cbn zeta.
  set (r0 := run h (resolve_version_group p sf _) s).
  destruct (issued_resolve_version_group h p sf
              (get input "version_group_id" VNone) s)
    as [Hnil|(c & Hc & Hlook)]; fold r0 in Hnil || fold r0 in Hc.
  - assert (exists e, ended r0 = Err e) as [e ->].
    { subst r0. revert Hnil. unfold resolve_version_group.
      destruct (truthy _); simpl.
      - by destruct (h (FlowFirstByVersionGroup _) s) as [[[f|]|e] s'].
      - destruct sf as [| | |d]; simpl; try by eexists.
        by destruct (h (FlowFirstByProjectName _ _) s) as [[[f|]|e] s']. }
    exists (FlowFirstByVersionGroup VNone), none, "", [].
    cbn [issued]. rewrite Hnil. split; [done|apply prefix_nil].
  - destruct (ended r0) as [resolved|e].
    + set (args0 := mkCreate _ _ _ _ _ _).
      destruct (h (ApiCreateFlow args0) (store_after r0))
        as [[fid|e] s2]; cbn [issued]; rewrite Hc.
      * destruct (issued_archive_other_versions h resolved.1 fid s2)
          as (versions & Hpre).
        exists c, args0, fid, versions. split; [done|].
        by apply prefix_cons, prefix_cons.
      * exists c, args0, "", []. split; [done|].
        apply prefix_cons, prefix_cons, prefix_nil.
    + exists c, none, "", []. cbn [issued]. rewrite Hc.
      split; [done|]. apply prefix_cons, prefix_nil.
Qed.

(** X3: a [serialized_flow] that is not a dictionary has no [get]: with the
    version group unset or falsy the registration raises [AttributeError]
    when it builds the name lookup, before any call reaches the store. *)
Theorem create_flow_needs_a_dictionary
    {S : Type} (h : @handler S) (s : S) (input : gmap string pyval)
    (sf p : pyval) :
  input !! "serialized_flow" = Some sf ->
  (forall d, sf <> VDict d) ->
  input !! "project_id" = Some p ->
  is_none p = false ->
  truthy (get input "version_group_id" VNone) = false ->
  run h (resolve_create_flow input) s =
    mkRun (Err (AttributeError "get")) s [].
Proof.
  intros Hsf Hnd Hp Hnone Hv.
  rewrite (run_create_flow_validated h s input sf p Hsf Hp Hnone).
  unfold resolve_version_group. rewrite Hv.
  destruct sf as [| | |d]; try done. by destruct (Hnd d).
Qed.

Lemma create_flow_needs_a_dictionary_witness :
  let input : gmap string pyval :=
    {[ "serialized_flow" := VStr "etl"; "project_id" := VStr "P1" ]} in
  input !! "serialized_flow" = Some (VStr "etl") /\
  (forall d, VStr "etl" <> VDict d) /\
  input !! "project_id" = Some (VStr "P1") /\
  is_none (VStr "P1") = false /\
  truthy (get input "version_group_id" VNone) = false /\
  run store_handler (resolve_create_flow input) scenario_store =
    mkRun (Err (AttributeError "get")) scenario_store [].
Proof.
  cbn zeta.
  split; [reflexivity|]. split; [discriminate|]. split; [reflexivity|].
  split; [reflexivity|]. split; [reflexivity|].
  apply (create_flow_needs_a_dictionary store_handler scenario_store
           {[ "serialized_flow" := VStr "etl"; "project_id" := VStr "P1" ]}
           (VStr "etl") (VStr "P1")).
  - reflexivity.
  - discriminate.
  - reflexivity.
  - reflexivity.
  - reflexivity.
Defined.

(** X4: with a version group set, the submitted flow is never inspected:
    resolution issues the existence check and nothing else, whatever
    [serialized_flow] is, and the outcome depends on the store's answer
    alone. *)
Theorem set_group_ignores_the_flow
    {S : Type} (h : @handler S) (s : S) (p sf sf' v : pyval) :
  truthy v = true ->
  run h (resolve_version_group p sf v) s =
    run h (resolve_version_group p sf' v) s /\
  issued (run h (resolve_version_group p sf v) s) =
    [FlowFirstByVersionGroup v].
Proof.
  intros Hv. unfold resolve_version_group. rewrite Hv. simpl.
  split; [done|].
  by destruct (h (FlowFirstByVersionGroup v) s) as [[[f|]|e] s'].
Qed.

Lemma set_group_ignores_the_flow_witness :
  truthy (VStr "G1") = true /\
  run store_handler
    (resolve_version_group (VStr "P1") (VStr "etl") (VStr "G1"))
    scenario_store =
    run store_handler
      (resolve_version_group (VStr "P1") VNone (VStr "G1"))
      scenario_store /\
  issued (run store_handler
            (resolve_version_group (VStr "P1") (VStr "etl") (VStr "G1"))
            scenario_store) =
    [FlowFirstByVersionGroup (VStr "G1")].
Proof.
  split; [reflexivity|].
  apply (set_group_ignores_the_flow store_handler scenario_store
           (VStr "P1") (VStr "etl") VNone (VStr "G1")).
  reflexivity.
Defined.

(** X5: an exception of the store during resolution is the outcome of the
    registration: the lookup is the only call issued, and neither the
    create call nor any archive call follows. *)
Theorem failed_lookup_ends_registration
    {S : Type} (h : @handler S) (s : S) (input : gmap string pyval)
    (sf p : pyval) (e : exn) :
  input !! "serialized_flow" = Some sf ->
  input !! "project_id" = Some p ->
  is_none p = false ->
  let r0 := run h (resolve_version_group p sf
                     (get input "version_group_id" VNone)) s in
  ended r0 = Err e ->
  run h (resolve_create_flow input) s =
    mkRun (Err e) (store_after r0) (issued r0) /\
  forall c, In c (issued r0) -> is_lookup c = true.
Proof.
  intros Hsf Hp Hnone r0 He.
  rewrite (run_create_flow_validated h s input sf p Hsf Hp Hnone).
  cbn zeta. fold r0. rewrite He. split; [done|].
  intros c Hc.
  destruct (issued_resolve_version_group h p sf
              (get input "version_group_id" VNone) s)
    as [Hnil|(c' & Hc' & Hlook)]; fold r0 in Hnil || fold r0 in Hc'.
  - rewrite Hnil in Hc. destruct Hc.
  - rewrite Hc' in Hc. by destruct Hc as [<-|[]].
Qed.

Lemma failed_lookup_ends_registration_witness :
  etl_submission !! "serialized_flow" =
    Some (VDict {[ "name" := VStr "etl" ]}) /\
  etl_submission !! "project_id" = Some (VStr "P1") /\
  is_none (VStr "P1") = false /\
  let r0 := run unreachable_store
              (resolve_version_group (VStr "P1")
                 (VDict {[ "name" := VStr "etl" ]})
                 (get etl_submission "version_group_id" VNone)) tt in
  ended r0 = Err (StoreFailure "unreachable") /\
  run unreachable_store (resolve_create_flow etl_submission) tt =
    mkRun (Err (StoreFailure "unreachable")) (store_after r0) (issued r0) /\
  forall c, In c (issued r0) -> is_lookup c = true.
Proof.
  split; [reflexivity|]. split; [reflexivity|]. split; [reflexivity|].
  cbn zeta. split; [reflexivity|].
  apply (failed_lookup_ends_registration unreachable_store tt etl_submission
           (VDict {[ "name" := VStr "etl" ]}) (VStr "P1")
           (StoreFailure "unreachable")).
  - reflexivity.
  - reflexivity.
  - reflexivity.
  - reflexivity.
Defined.

(** X6: an exception of the create call is the outcome of the
    registration, and the create call is the last call issued: no version
    is queried or archived for a flow that was not created. *)
Theorem failed_create_archives_nothing
    {S : Type} (h : @handler S) (s s2 : S) (input : gmap string pyval)
    (sf p g : pyval) (new : bool) (e : exn) :
  input !! "serialized_flow" = Some sf ->
  input !! "project_id" = Some p ->
  is_none p = false ->
  let r0 := run h (resolve_version_group p sf
                     (get input "version_group_id" VNone)) s in
  let args :=
    {| c_project_id := p;
       c_serialized_flow := sf;
       c_version_group_id := g;
       c_set_schedule_active := get input "set_schedule_active" (VBool true);
       c_description := get input "description" VNone;
       c_idempotency_key := get input "idempotency_key" VNone |} in
  ended r0 = Ok (g, new) ->
  h (ApiCreateFlow args) (store_after r0) = (Err e, s2) ->
  run h (resolve_create_flow input) s =
    mkRun (Err e) s2 (issued r0 ++ [ApiCreateFlow args]).
Proof.
  intros Hsf Hp Hnone r0 args Hres Hcreate.
  rewrite (run_create_flow_validated h s input sf p Hsf Hp Hnone).
  cbn zeta. fold r0. rewrite Hres. cbn [fst]. fold args.
  by rewrite Hcreate.
Qed.

Lemma failed_create_archives_nothing_witness :
  etl_submission !! "serialized_flow" =
    Some (VDict {[ "name" := VStr "etl" ]}) /\
  etl_submission !! "project_id" = Some (VStr "P1") /\
  is_none (VStr "P1") = false /\
  let r0 := run refusing_create
              (resolve_version_group (VStr "P1")
                 (VDict {[ "name" := VStr "etl" ]})
                 (get etl_submission "version_group_id" VNone))
              scenario_store in
  let args :=
    {| c_project_id := VStr "P1";
       c_serialized_flow := VDict {[ "name" := VStr "etl" ]};
       c_version_group_id := VStr "G1";
       c_set_schedule_active :=
         get etl_submission "set_schedule_active" (VBool true);
       c_description := get etl_submission "description" VNone;
       c_idempotency_key := get etl_submission "idempotency_key" VNone |} in
  ended r0 = Ok (VStr "G1", false) /\
  refusing_create (ApiCreateFlow args) (store_after r0) =
    (Err (StoreFailure "create"), scenario_store) /\
  run refusing_create (resolve_create_flow etl_submission) scenario_store =
    mkRun (Err (StoreFailure "create")) scenario_store
      (issued r0 ++ [ApiCreateFlow args]).
Proof.
  split; [reflexivity|]. split; [reflexivity|]. split; [reflexivity|].
  cbn zeta. split; [reflexivity|]. split; [reflexivity|].
  apply (failed_create_archives_nothing refusing_create scenario_store
           scenario_store etl_submission
           (VDict {[ "name" := VStr "etl" ]}) (VStr "P1") (VStr "G1")
           false (StoreFailure "create")).
  - reflexivity.
  - reflexivity.
  - reflexivity.
  - reflexivity.
  - reflexivity.
Defined.

(** ** The heartbeat and lazarus toggles *)

(** X7: each of the four heartbeat and lazarus toggles raises before any
    call reaches the store when [flow_id] is missing ([KeyError]) or falsy:
    [None] or the empty string ([ValueError("Invalid flow ID.")]). *)
Theorem toggles_reject_blank_flow_id
    {S : Type} (h : @handler S) (s : S) (input : gmap string pyval) :
  match input !! "flow_id" with
  | Some v => truthy v = false
  | None => True
  end ->
  let rejected :=
    mkRun (A := gmap string pyval)
      (Err match input !! "flow_id" with
           | Some _ => ValueError "Invalid flow ID."
           | None => KeyError "flow_id"
           end) s [] in
  run h (resolve_disable_heartbeat_for_flow input) s = rejected /\
  run h (resolve_enable_heartbeat_for_flow input) s = rejected /\
  run h (resolve_enable_flow_lazarus_process input) s = rejected /\
  run h (resolve_disable_flow_lazarus_process input) s = rejected.
Proof.
  intros Hv. cbn zeta.
  unfold resolve_disable_heartbeat_for_flow,
    resolve_enable_heartbeat_for_flow, resolve_enable_flow_lazarus_process,
    resolve_disable_flow_lazarus_process, subscript.
  destruct (input !! "flow_id") as [v|]; simpl; [|done].
  by rewrite Hv.
Qed.

Lemma toggles_reject_blank_flow_id_witness :
  let input : gmap string pyval := {[ "flow_id" := VStr "" ]} in
  match input !! "flow_id" with
  | Some v => truthy v = false
  | None => True
  end /\
  let rejected :=
    mkRun (A := gmap string pyval)
      (Err match input !! "flow_id" with
           | Some _ => ValueError "Invalid flow ID."
           | None => KeyError "flow_id"
           end) scenario_store [] in
  run store_handler (resolve_disable_heartbeat_for_flow input) scenario_store =
    rejected /\
  run store_handler (resolve_enable_heartbeat_for_flow input) scenario_store =
    rejected /\
  run store_handler (resolve_enable_flow_lazarus_process input) scenario_store =
    rejected /\
  run store_handler (resolve_disable_flow_lazarus_process input)
    scenario_store =
    rejected.
Proof.
  cbn zeta. split; [reflexivity|].
  apply (toggles_reject_blank_flow_id store_handler scenario_store
           {[ "flow_id" := VStr "" ]}).
  reflexivity.
Defined.

(** X8: when no flow has the given id, each of the four toggles raises
    [ValueError("Invalid flow ID.")] after the lookup: the lookup is the only
    call issued and no flow group is touched. *)
Theorem toggles_need_a_stored_flow
    {S : Type} (h : @handler S) (s s1 : S) (input : gmap string pyval)
    (v : pyval) :
  input !! "flow_id" = Some v ->
  truthy v = true ->
  h (FlowFirstById v) s = (Ok None, s1) ->
  let unknown :=
    mkRun (A := gmap string pyval)
      (Err (ValueError "Invalid flow ID.")) s1 [FlowFirstById v] in
  run h (resolve_disable_heartbeat_for_flow input) s = unknown /\
  run h (resolve_enable_heartbeat_for_flow input) s = unknown /\
  run h (resolve_enable_flow_lazarus_process input) s = unknown /\
  run h (resolve_disable_flow_lazarus_process input) s = unknown.
Proof.
  intros Hv Ht Hlookup. cbn zeta.
  unfold resolve_disable_heartbeat_for_flow,
    resolve_enable_heartbeat_for_flow, resolve_enable_flow_lazarus_process,
    resolve_disable_flow_lazarus_process, subscript.
  rewrite Hv. simpl. rewrite Ht. simpl. by rewrite Hlookup.
Qed.

Lemma toggles_need_a_stored_flow_witness :
  let input : gmap string pyval := {[ "flow_id" := VStr "F9" ]} in
  input !! "flow_id" = Some (VStr "F9") /\
  truthy (VStr "F9") = true /\
  store_handler (FlowFirstById (VStr "F9")) scenario_store =
    (Ok None, scenario_store) /\
  let unknown :=
    mkRun (A := gmap string pyval)
      (Err (ValueError "Invalid flow ID.")) scenario_store
      [FlowFirstById (VStr "F9")] in
  run store_handler (resolve_disable_heartbeat_for_flow input) scenario_store =
    unknown /\
  run store_handler (resolve_enable_heartbeat_for_flow input) scenario_store =
    unknown /\
  run store_handler (resolve_enable_flow_lazarus_process input) scenario_store =
    unknown /\
  run store_handler (resolve_disable_flow_lazarus_process input)
    scenario_store =
    unknown.
Proof.
  cbn zeta. split; [reflexivity|]. split; [reflexivity|].
  split; [reflexivity|].
  apply (toggles_need_a_stored_flow store_handler scenario_store
           scenario_store {[ "flow_id" := VStr "F9" ]} (VStr "F9")).
  - reflexivity.
  - reflexivity.
  - reflexivity.
Defined.

(** X9: when the lookup finds the flow, each toggle issues exactly one
    further call, its own flow-group operation, on the [flow_group_id] of
    the flow found (not on the flow id), and returns what that operation
    answers as [{success: ...}]; if the operation raises, so does the
    toggle. *)
Theorem toggles_act_on_the_flow_group
    {S : Type} (h : @handler S) (s s1 : S) (input : gmap string pyval)
    (v : pyval) (flow : Flow.t) :
  input !! "flow_id" = Some v ->
  truthy v = true ->
  h (FlowFirstById v) s = (Ok (Some flow), s1) ->
  let toggled := fun (group : call) (answered : outcome bool * S) =>
    mkRun (A := gmap string pyval)
      match answered.1 with
      | Ok success => Ok {[ "success" := VBool success ]}
      | Err e => Err e
      end
      answered.2 [FlowFirstById v; group] in
  run h (resolve_disable_heartbeat_for_flow input) s =
    toggled (GroupDisableHeartbeat (Flow.flow_group_id flow))
      (h (GroupDisableHeartbeat (Flow.flow_group_id flow)) s1) /\
  run h (resolve_enable_heartbeat_for_flow input) s =
    toggled (GroupEnableHeartbeat (Flow.flow_group_id flow))
      (h (GroupEnableHeartbeat (Flow.flow_group_id flow)) s1) /\
  run h (resolve_enable_flow_lazarus_process input) s =
    toggled (GroupEnableLazarus (Flow.flow_group_id flow))
      (h (GroupEnableLazarus (Flow.flow_group_id flow)) s1) /\
  run h (resolve_disable_flow_lazarus_process input) s =
    toggled (GroupDisableLazarus (Flow.flow_group_id flow))
      (h (GroupDisableLazarus (Flow.flow_group_id flow)) s1).
Proof.
  intros Hv Ht Hlookup. cbn zeta.
  unfold resolve_disable_heartbeat_for_flow,
    resolve_enable_heartbeat_for_flow, resolve_enable_flow_lazarus_process,
    resolve_disable_flow_lazarus_process, subscript.
  rewrite Hv. simpl. rewrite Ht. simpl. rewrite Hlookup.
  repeat split.
  - simpl. by destruct (h (GroupDisableHeartbeat _) s1) as [[b|e] s2].
  - simpl. by destruct (h (GroupEnableHeartbeat _) s1) as [[b|e] s2].
  - simpl. by destruct (h (GroupEnableLazarus _) s1) as [[b|e] s2].
  - simpl. by destruct (h (GroupDisableLazarus _) s1) as [[b|e] s2].
Qed.

Lemma toggles_act_on_the_flow_group_witness :
  let input : gmap string pyval := {[ "flow_id" := VStr "F1" ]} in
  input !! "flow_id" = Some (VStr "F1") /\
  truthy (VStr "F1") = true /\
  store_handler (FlowFirstById (VStr "F1")) scenario_store =
    (Ok (Some F1), scenario_store) /\
  let toggled := fun (group : call) (answered : outcome bool * Store) =>
    mkRun (A := gmap string pyval)
      match answered.1 with
      | Ok success => Ok {[ "success" := VBool success ]}
      | Err e => Err e
      end
      answered.2 [FlowFirstById (VStr "F1"); group] in
  run store_handler (resolve_disable_heartbeat_for_flow input) scenario_store =
    toggled (GroupDisableHeartbeat (Flow.flow_group_id F1))
      (store_handler (GroupDisableHeartbeat (Flow.flow_group_id F1))
         scenario_store) /\
  run store_handler (resolve_enable_heartbeat_for_flow input) scenario_store =
    toggled (GroupEnableHeartbeat (Flow.flow_group_id F1))
      (store_handler (GroupEnableHeartbeat (Flow.flow_group_id F1))
         scenario_store) /\
  run store_handler (resolve_enable_flow_lazarus_process input) scenario_store =
    toggled (GroupEnableLazarus (Flow.flow_group_id F1))
      (store_handler (GroupEnableLazarus (Flow.flow_group_id F1))
         scenario_store) /\
  run store_handler (resolve_disable_flow_lazarus_process input)
    scenario_store =
    toggled (GroupDisableLazarus (Flow.flow_group_id F1))
      (store_handler (GroupDisableLazarus (Flow.flow_group_id F1))
         scenario_store).
Proof.
  cbn zeta. split; [reflexivity|]. split; [reflexivity|].
  split; [reflexivity|].
  apply (toggles_act_on_the_flow_group store_handler scenario_store
           scenario_store {[ "flow_id" := VStr "F1" ]} (VStr "F1") F1).
  - reflexivity.
  - reflexivity.
  - reflexivity.
Defined.

(** ** Registering tasks and edges *)

(** X10: registering tasks or edges reads its payload key first: with the
    payload key missing it raises [KeyError] for that key, with [flow_id]
    missing [KeyError] for [flow_id], and with [flow_id] [None]
    [ValueError("Invalid flow ID")]; in each case nothing reaches the
    store. *)
Theorem register_rejects_null_flow_id
    {S : Type} (h : @handler S) (s : S) (input : gmap string pyval) :
  input !! "flow_id" = None \/ input !! "flow_id" = Some VNone ->
  let rejected := fun payload : string =>
    mkRun (A := gmap string pyval)
      (Err match input !! payload, input !! "flow_id" with
           | None, _ => KeyError payload
           | Some _, None => KeyError "flow_id"
           | Some _, Some _ => ValueError "Invalid flow ID"
           end) s [] in
  run h (resolve_register_tasks input) s = rejected "serialized_tasks" /\
  run h (resolve_register_edges input) s = rejected "serialized_edges".
Proof.
  intros Hv. cbn zeta.
  unfold resolve_register_tasks, resolve_register_edges, subscript.
  split.
  - destruct (input !! "serialized_tasks"); simpl; [|done].
    by destruct Hv as [-> | ->].
  - destruct (input !! "serialized_edges"); simpl; [|done].
    by destruct Hv as [-> | ->].
Qed.

Lemma register_rejects_null_flow_id_witness :
  let input : gmap string pyval :=
    {[ "serialized_tasks" := VDict ∅; "flow_id" := VNone ]} in
  (input !! "flow_id" = None \/ input !! "flow_id" = Some VNone) /\
  run store_handler (resolve_register_tasks input) scenario_store =
    mkRun (Err (ValueError "Invalid flow ID")) scenario_store [] /\
  run store_handler (resolve_register_edges input) scenario_store =
    mkRun (Err (KeyError "serialized_edges")) scenario_store [].
Proof.
  cbn zeta. split; [right; reflexivity|].
  exact (register_rejects_null_flow_id store_handler scenario_store
           {[ "serialized_tasks" := VDict ∅; "flow_id" := VNone ]}
           (or_intror eq_refl)).
Defined.

(** X11: with a [flow_id] other than [None] (the empty string included),
    registering tasks or edges issues exactly one store call, carrying the
    flow id and the payload as given, and returns [{success: True}] whenever
    that call does not raise; an exception of the call is the outcome.  With
    the payload key missing it raises [KeyError] and issues nothing. *)
Theorem register_delegates_once
    {S : Type} (h : @handler S) (s : S) (input : gmap string pyval)
    (v : pyval) :
  input !! "flow_id" = Some v ->
  is_none v = false ->
  let registered := fun (c : call) (answered : outcome (answer c) * S) =>
    mkRun (A := gmap string pyval)
      match answered.1 with
      | Ok _ => Ok {[ "success" := VBool true ]}
      | Err e => Err e
      end
      answered.2 [c] in
  run h (resolve_register_tasks input) s =
    match input !! "serialized_tasks" with
    | Some tasks =>
        registered (ApiRegisterTasks v tasks)
          (h (ApiRegisterTasks v tasks) s)
    | None => mkRun (Err (KeyError "serialized_tasks")) s []
    end /\
  run h (resolve_register_edges input) s =
    match input !! "serialized_edges" with
    | Some edges =>
        registered (ApiRegisterEdges v edges)
          (h (ApiRegisterEdges v edges) s)
    | None => mkRun (Err (KeyError "serialized_edges")) s []
    end.
Proof.
  intros Hv Hnone. cbn zeta.
  unfold resolve_register_tasks, resolve_register_edges, subscript.
  rewrite Hv. split.
  - destruct (input !! "serialized_tasks") as [tasks|]; simpl; [|done].
    rewrite Hnone. simpl.
    by destruct (h (ApiRegisterTasks v tasks) s) as [[u|e] s'].
  - destruct (input !! "serialized_edges") as [edges|]; simpl; [|done].
    rewrite Hnone. simpl.
    by destruct (h (ApiRegisterEdges v edges) s) as [[u|e] s'].
Qed.

Lemma register_delegates_once_witness :
  let input : gmap string pyval :=
    {[ "serialized_tasks" := VDict ∅; "flow_id" := VStr "" ]} in
  input !! "flow_id" = Some (VStr "") /\
  is_none (VStr "") = false /\
  run store_handler (resolve_register_tasks input) scenario_store =
    mkRun (Ok {[ "success" := VBool true ]}) scenario_store
      [ApiRegisterTasks (VStr "") (VDict ∅)] /\
  run store_handler (resolve_register_edges input) scenario_store =
    mkRun (Err (KeyError "serialized_edges")) scenario_store [].
Proof.
  cbn zeta. split; [reflexivity|]. split; [reflexivity|].
  exact (register_delegates_once store_handler scenario_store
           {[ "serialized_tasks" := VDict ∅; "flow_id" := VStr "" ]}
           (VStr "") eq_refl eq_refl).
Defined.

(** ** The single-call resolvers *)

(** X12: delete, archive, the two schedule toggles and the project
    reassignment raise [KeyError("flow_id")] when the key is missing (the
    reassignment reads [flow_id] before [project_id]); nothing reaches the
    store. *)
Theorem single_call_resolvers_need_flow_id
    {S : Type} (h : @handler S) (s : S) (input : gmap string pyval) :
  input !! "flow_id" = None ->
  let missing :=
    mkRun (A := gmap string pyval) (Err (KeyError "flow_id")) s [] in
  run h (resolve_delete_flow input) s = missing /\
  run h (resolve_archive_flow input) s = missing /\
  run h (resolve_set_schedule_active input) s = missing /\
  run h (resolve_set_schedule_inactive input) s = missing /\
  run h (resolve_update_flow_project input) s = missing.
Proof.
  unfold resolve_delete_flow, resolve_archive_flow,
    resolve_set_schedule_active, resolve_set_schedule_inactive,
    resolve_update_flow_project, subscript.
  by intros ->.
Qed.

Lemma single_call_resolvers_need_flow_id_witness :
  let input : gmap string pyval := {[ "project_id" := VStr "P1" ]} in
  input !! "flow_id" = None /\
  let missing :=
    mkRun (A := gmap string pyval) (Err (KeyError "flow_id"))
      scenario_store [] in
  run store_handler (resolve_delete_flow input) scenario_store = missing /\
  run store_handler (resolve_archive_flow input) scenario_store = missing /\
  run store_handler (resolve_set_schedule_active input) scenario_store =
    missing /\
  run store_handler (resolve_set_schedule_inactive input) scenario_store =
    missing /\
  run store_handler (resolve_update_flow_project input) scenario_store =
    missing.
Proof.
  cbn zeta. split; [reflexivity|].
  exact (single_call_resolvers_need_flow_id store_handler scenario_store
           {[ "project_id" := VStr "P1" ]} eq_refl).
Defined.

(** X13: with [flow_id] present, whatever its value ([None] and the empty
    string included), delete, archive and the two schedule toggles issue
    exactly one store call carrying that value, and return the store's
    answer as [{success: ...}]; an exception of the store is the outcome.
    The project reassignment does the same with both keys and returns the
    store's answer as [{id: ...}]; with [project_id] missing it raises
    [KeyError("project_id")] and issues nothing. *)
Theorem single_call_resolvers_delegate
    {S : Type} (h : @handler S) (s : S) (input : gmap string pyval)
    (v : pyval) :
  input !! "flow_id" = Some v ->
  let wrapped := fun (c : call) (key : string) (wrap : answer c -> pyval)
                     (answered : outcome (answer c) * S) =>
    mkRun (A := gmap string pyval)
      match answered.1 with
      | Ok x => Ok {[ key := wrap x ]}
      | Err e => Err e
      end
      answered.2 [c] in
  run h (resolve_delete_flow input) s =
    wrapped (ApiDeleteFlow v) "success" VBool (h (ApiDeleteFlow v) s) /\
  run h (resolve_archive_flow input) s =
    wrapped (ApiArchiveFlow v) "success" VBool (h (ApiArchiveFlow v) s) /\
  run h (resolve_set_schedule_active input) s =
    wrapped (ApiSetScheduleActive v) "success" VBool
      (h (ApiSetScheduleActive v) s) /\
  run h (resolve_set_schedule_inactive input) s =
    wrapped (ApiSetScheduleInactive v) "success" VBool
      (h (ApiSetScheduleInactive v) s) /\
  run h (resolve_update_flow_project input) s =
    match input !! "project_id" with
    | Some p =>
        wrapped (ApiUpdateFlowProject v p) "id" (fun x => x)
          (h (ApiUpdateFlowProject v p) s)
    | None => mkRun (Err (KeyError "project_id")) s []
    end.
Proof.
  intros Hv. cbn zeta.
  unfold resolve_delete_flow, resolve_archive_flow,
    resolve_set_schedule_active, resolve_set_schedule_inactive,
    resolve_update_flow_project, subscript.
  rewrite Hv. simpl. repeat split.
  - by destruct (h (ApiDeleteFlow v) s) as [[b|e] s'].
  - by destruct (h (ApiArchiveFlow v) s) as [[b|e] s'].
  - by destruct (h (ApiSetScheduleActive v) s) as [[b|e] s'].
  - by destruct (h (ApiSetScheduleInactive v) s) as [[b|e] s'].
  - destruct (input !! "project_id") as [p|]; simpl; [|done].
    by destruct (h (ApiUpdateFlowProject v p) s) as [[b|e] s'].
Qed.

Lemma single_call_resolvers_delegate_witness :
  let input : gmap string pyval := {[ "flow_id" := VNone ]} in
  input !! "flow_id" = Some VNone /\
  run store_handler (resolve_archive_flow input) scenario_store =
    mkRun (Ok {[ "success" := VBool false ]}) scenario_store
      [ApiArchiveFlow VNone].
Proof.
  cbn zeta. split; [reflexivity|].
  apply (single_call_resolvers_delegate store_handler scenario_store
           {[ "flow_id" := VNone ]} VNone).
  reflexivity.
Defined.

(** ** The compressed-input resolver *)

(** X14: the compressed-input resolver raises
    [TypeError("Unable to decompress serialized flow")] exactly when the
    [serialized_flow] key is missing or [decompress] raises on its value,
    whatever the other keys hold (a [None] project id included): the
    missing key is not reported as a [KeyError], and decoding is checked
    before the project id. *)
Theorem compressed_flow_type_error
    (decompress : pyval -> option pyval) (input : gmap string pyval) :
  resolve_create_flow_from_compressed_string decompress input =
    TypeError "Unable to decompress serialized flow" <->
  input !! "serialized_flow" = None \/
  exists compressed,
    input !! "serialized_flow" = Some compressed /\
    decompress compressed = None.
Proof.
  unfold resolve_create_flow_from_compressed_string.
  destruct (input !! "serialized_flow") as [c|]; simpl.
  - destruct (decompress c) as [sf|] eqn:Hc.
    + split; [done|]. intros [H|(c' & [= <-] & H)]; congruence.
    + split; [|done]. intros _. right. by exists c.
  - split; [by left|done].
Qed.

(** X15: when decompression succeeds, the registration that follows works
    on the decompressed flow: with a project id and no version group, the
    first call issued is the lookup by that project and by the name found in
    the decompressed dictionary, whatever the store. *)
Theorem compressed_flow_is_looked_up_by_its_name
    (decompress : pyval -> option pyval) (input d : gmap string pyval)
    (compressed p : pyval) :
  input !! "serialized_flow" = Some compressed ->
  decompress compressed = Some (VDict d) ->
  input !! "project_id" = Some p ->
  is_none p = false ->
  truthy (get input "version_group_id" VNone) = false ->
  exists registration,
    resolve_create_flow_from_compressed_string decompress input =
      Proceeds registration /\
    forall (S : Type) (h : @handler S) (s : S),
    exists rest,
      issued (run h registration s) =
        FlowFirstByProjectName p (get d "name" VNone) :: rest.
Proof.
  intros Hc Hd Hp Hnone Hv.
  unfold resolve_create_flow_from_compressed_string.
  rewrite Hc. simpl. rewrite Hd. eexists. split; [done|].
  intros S h s.
  set (input' := <[ "serialized_flow" := VDict d ]> input).
  assert (input' !! "serialized_flow" = Some (VDict d)) as Hsf'
    by apply lookup_insert_eq.
  assert (input' !! "project_id" = Some p) as Hp'
    by (unfold input'; by rewrite lookup_insert_ne).
  assert (get input' "version_group_id" VNone =
          get input "version_group_id" VNone) as Hv'
    by (unfold get, input'; by rewrite lookup_insert_ne).
  rewrite (run_create_flow_validated h s input' (VDict d) p Hsf' Hp' Hnone).
  rewrite Hv'. unfold resolve_version_group. rewrite Hv. simpl.
  destruct (h (FlowFirstByProjectName p (get d "name" VNone)) s)
    as [[[f|]|e] s1]; simpl.
  - destruct (h (ApiCreateFlow _) s1) as [[fid|e] s2]; by eexists.
  - destruct (h (ApiCreateFlow _) s1) as [[fid|e] s2]; by eexists.
  - by eexists.
Qed.

Lemma compressed_flow_is_looked_up_by_its_name_witness :
  let decompress := fun v : pyval =>
    match v with
    | VStr "H4sI" => Some (VDict {[ "name" := VStr "etl" ]})
    | _ => None
    end in
  let input : gmap string pyval :=
    {[ "serialized_flow" := VStr "H4sI"; "project_id" := VStr "P1" ]} in
  input !! "serialized_flow" = Some (VStr "H4sI") /\
  decompress (VStr "H4sI") = Some (VDict {[ "name" := VStr "etl" ]}) /\
  input !! "project_id" = Some (VStr "P1") /\
  is_none (VStr "P1") = false /\
  truthy (get input "version_group_id" VNone) = false /\
  exists registration,
    resolve_create_flow_from_compressed_string decompress input =
      Proceeds registration /\
    forall (S : Type) (h : @handler S) (s : S),
    exists rest,
      issued (run h registration s) =
        FlowFirstByProjectName (VStr "P1")
          (get {[ "name" := VStr "etl" ]} "name" VNone) :: rest.
Proof.
  cbn zeta.
  split; [reflexivity|]. split; [reflexivity|]. split; [reflexivity|].
  split; [reflexivity|]. split; [reflexivity|].
  apply (compressed_flow_is_looked_up_by_its_name _
           {[ "serialized_flow" := VStr "H4sI"; "project_id" := VStr "P1" ]}
           {[ "name" := VStr "etl" ]} (VStr "H4sI") (VStr "P1")).
  - reflexivity.
  - reflexivity.
  - reflexivity.
  - reflexivity.
  - reflexivity.
Defined.

(** ** Registrations on the flow store *)

(** The archive loop on the store: the versions it got through are
    archived, the others are not touched. *)
Lemma archive_versions_on_store (s : Store) (l : list Flow.t) :
  exists served : list Flow.t,
    served `prefix_of` l /\
    store_after (run store_handler (archive_versions l) s) =
      set_flows s (archive_all served (flows s)) /\
    (forall u, ended (run store_handler (archive_versions l) s) = Ok u ->
       served = l).
Proof.
  revert s. induction l as [|f l IH]; intros s.
  - exists []. simpl. by rewrite set_flows_same.
  - simpl. rewrite archive_step.
    destruct (existsb _ (unavailable s)) eqn:Hu.
    + exists []. simpl. rewrite set_flows_same.
      split; [apply prefix_nil|done].
    + destruct (IH (set_flows s (archive_all [f] (flows s))))
        as (served & Hpre & Hstore & Hok).
      exists (f :: served). simpl.
      split; [by apply prefix_cons|]. split; [exact Hstore|].
      intros u Hu'. f_equal. by apply (Hok u).
Qed.

(** What a registration does to the store.  Either the store is as it was
    and the registration failed, or the create call was answered, with a
    new flow or as a retry, and some unarchived other versions of the group
    handed to it, all of them if the registration succeeded, were
    archived. *)
Lemma registration_on_store (s : Store) (input : gmap string pyval) :
  let r := run store_handler (resolve_create_flow input) s in
  (store_after r = s /\ forall out, ended r <> Ok out) \/
  exists (args : create_args) (flow_id : string)
         (added served : list Flow.t),
    let l := (flows s ++ added)%list in
    let versions :=
      if truthy (c_version_group_id args)
      then List.filter
             (other_unarchived (c_version_group_id args) flow_id) l
      else [] in
    In (ApiCreateFlow args) (issued r) /\
    (added = [] \/
     added = [new_flow s args] /\ flow_id = Flow.id (new_flow s args)) /\
    served `prefix_of` versions /\
    flows (store_after r) = archive_all served l /\
    (forall out, ended r = Ok out ->
       out = {[ "id" := VStr flow_id ]} /\ served = versions).
Proof.
  intros r. subst r.
  destruct (create_flow_validated_or_rejected input)
    as [(sf & p & Hsf & Hp & Hnone)|Hrej].
  2: { left. revert Hrej. unfold resolve_create_flow, subscript.
       destruct (input !! "serialized_flow") as [sf|]; [|done].
       destruct (input !! "project_id") as [p|]; [|done]. simpl.
       intros Hrej. by rewrite (Hrej sf p). }
  rewrite (run_create_flow_validated store_handler s input sf p Hsf Hp
             Hnone).
  cbn zeta. rewrite resolve_version_group_reads.
  destruct (ended (run store_handler (resolve_version_group p sf _) s))
    as [[g isnew]|e]; [|by left].
  right. cbn [fst].
  set (args := mkCreate _ _ _ _ _ _).
  destruct (create_cases s args)
    as (fid & s2 & added & Hcreate & Hflows & _ & Hadded).
  exists args, fid, added. rewrite Hcreate. cbn iota zeta.
  change (c_version_group_id args) with g.
  unfold archive_other_versions. destruct (truthy g).
  - cbn [run await bind store_handler].
    rewrite <- Hflows.
    set (versions := List.filter (other_unarchived g fid) (flows s2)).
    destruct (archive_versions_on_store s2 versions)
      as (served & Hpre & Hstore & Hok).
    exists served. cbn [ended store_after issued].
    split; [apply in_app_iff; right; by left|].
    split; [done|]. split; [done|]. split; [by rewrite Hstore|].
    intros out Hout.
    destruct (ended (run store_handler (archive_versions versions) s2))
      as [u|e] eqn:Hend; [|done].
    injection Hout as <-. split; [done|]. by apply (Hok u).
  - exists []. cbn [run ended store_after issued].
    split; [apply in_app_iff; right; by left|].
    split; [done|]. split; [done|]. split; [done|].
    by intros out [= <-].
Qed.

Lemma set_archived_archived (f : Flow.t) :
  Flow.archived f = true -> set_archived f = f.
Proof. destruct f. simpl. by intros ->. Qed.

Lemma archive_all_archived_or_same (served l : list Flow.t) :
  Forall2 archived_or_same l (archive_all served l).
Proof.
  rewrite archive_all_listed. apply Forall2_fmap_r, Forall_Forall2_diag.
  apply Forall_forall. intros f _. unfold archived_or_same, compose.
  cbv beta. destruct (listed served f); [by right|by left].
Qed.

Lemma same_id_same_flow (l : list Flow.t) (a b : Flow.t) :
  NoDup (Flow.id <$> l) -> In a l -> In b l -> Flow.id a = Flow.id b ->
  a = b.
Proof.
  intros Hnd Ha Hb Hid.
  apply list_elem_of_In, list_elem_of_lookup in Ha as [i Hi].
  apply list_elem_of_In, list_elem_of_lookup in Hb as [j Hj].
  assert (i = j) as ->; [|congruence].
  eapply NoDup_lookup; [exact Hnd| |].
  - rewrite list_lookup_fmap, Hi. reflexivity.
  - rewrite list_lookup_fmap, Hj. simpl. by rewrite Hid.
Qed.

(** X16: a registration, failed or not, never removes a flow and never
    rewrites one: every flow of the store is still there afterwards, at the
    same place, unchanged or with its [archived] flag set, and at most one
    flow is added after them.  No flow is ever unarchived. *)
Theorem registration_only_sets_archived
    (s : Store) (input : gmap string pyval) :
  let r := run store_handler (resolve_create_flow input) s in
  exists kept added : list Flow.t,
    flows (store_after r) = (kept ++ added)%list /\
    Forall2 archived_or_same (flows s) kept /\
    (length added <= 1)%nat.
Proof.
  intros r.
  destruct (registration_on_store s input)
    as [[Hsame _]|(args & fid & new & served & _ & Hnew & _ & Hstore & _)];
    fold r in Hsame || fold r in Hstore.
  - exists (flows s), []. rewrite Hsame, app_nil_r. split; [done|].
    split; [|simpl; lia].
    apply Forall_Forall2_diag, Forall_forall. intros f _. by left.
  - pose proof (archive_all_archived_or_same served (flows s ++ new))
      as Hall.
    apply Forall2_app_inv_l in Hall
      as (kept & added & Hkept & Hadded & Heq).
    exists kept, added. rewrite Hstore. split; [done|].
    split; [done|].
    apply Forall2_length in Hadded. rewrite <- Hadded.
    destruct Hnew as [->|[-> _]]; simpl; lia.
Qed.

(** X18: with unique flow ids, the only flows a registration changes are
    unarchived flows of the version group handed to the create call: a flow
    that is archived, or of another group, is found unchanged afterwards,
    and so is every flow when no create call was issued. *)
Theorem registration_changes_its_group_only
    (s : Store) (input : gmap string pyval) (f : Flow.t) :
  NoDup (Flow.id <$> flows s) ->
  let r := run store_handler (resolve_create_flow input) s in
  In f (flows s) ->
  ~ In f (flows (store_after r)) ->
  Flow.archived f = false /\
  exists args,
    In (ApiCreateFlow args) (issued r) /\
    in_group (c_version_group_id args) f = true.
Proof.
  intros Hnd r Hf Hgone.
  destruct (registration_on_store s input)
    as [[Hsame _]
       |(args & fid & added & served & Hcreate & Hadded & Hpre & Hstore
         & _)];
    fold r in Hsame || (fold r in Hcreate; fold r in Hstore).
  { rewrite Hsame in Hgone. by destruct Hgone. }
  rewrite Hstore in Hgone.
  rewrite archive_all_listed in Hgone.
  set (g := c_version_group_id args) in *.
  destruct (listed served f) eqn:Hlisted.
  2: { destruct Hgone. apply list_elem_of_In, list_elem_of_fmap.
       exists f. rewrite Hlisted. split; [done|].
       apply list_elem_of_In, in_app_iff. by left. }
  apply listed_spec, list_elem_of_In, list_elem_of_fmap in Hlisted
    as (v & Hid & Hv).
  assert (In v (flows s) /\ other_unarchived g fid v = true)
    as [Hvs Hother].
  { destruct Hpre as [more Hmore].
    destruct (truthy g).
    - assert (In v (List.filter (other_unarchived g fid)
                      (flows s ++ added))) as Hin.
      { rewrite Hmore. apply in_app_iff. left. by apply list_elem_of_In. }
      apply filter_In in Hin as [Hin Hother]. split; [|done].
      apply in_app_iff in Hin as [Hin|Hin]; [done|].
      destruct Hadded as [->|[-> ->]]; [destruct Hin|].
      destruct Hin as [<-|[]].
      unfold other_unarchived in Hother.
      rewrite String.eqb_refl in Hother. simpl in Hother.
      by rewrite andb_false_r in Hother.
    - symmetry in Hmore. apply app_eq_nil in Hmore as [-> _].
      inversion Hv. }
  assert (f = v) as -> by (eapply same_id_same_flow; eauto).
  unfold other_unarchived in Hother.
  apply andb_true_iff in Hother as [Hother Harch].
  apply andb_true_iff in Hother as [Hgroup _].
  split; [by apply negb_true_iff|]. by exists args.
Qed.

Lemma registration_changes_its_group_only_witness :
  NoDup (Flow.id <$> flows scenario_store) /\
  let r := run store_handler (resolve_create_flow etl_submission)
             scenario_store in
  In F1 (flows scenario_store) /\
  ~ In F1 (flows (store_after r)) /\
  Flow.archived F1 = false /\
  exists args,
    In (ApiCreateFlow args) (issued r) /\
    in_group (c_version_group_id args) F1 = true.
Proof.
  assert (NoDup (Flow.id <$> flows scenario_store)) as Hnd.
  { apply NoDup_ListNoDup. repeat constructor. intros []. }
  assert (~ In F1 (flows (store_after
                            (run store_handler
                               (resolve_create_flow etl_submission)
                               scenario_store)))) as Hgone.
  { vm_compute. intros [H|[H|[]]]; discriminate H. }
  split; [exact Hnd|]. cbn zeta. split; [left; reflexivity|].
  split; [exact Hgone|].
  exact (registration_changes_its_group_only scenario_store etl_submission
           F1 Hnd (or_introl eq_refl) Hgone).
Defined.






(** * Supersession and the one unarchived version *)

(** The archive loop, whatever the store: the versions it attempted are an
    initial part of the list, all of it when the loop ran to its end. *)
Lemma archive_versions_attempts {S : Type} (h : @handler S)
    (l : list Flow.t) (s : S) :
  exists attempted : list Flow.t,
    attempted `prefix_of` l /\
    issued (run h (archive_versions l) s) = archive_call <$> attempted /\
    (forall u, ended (run h (archive_versions l) s) = Ok u ->
       attempted = l).
Proof.
  revert s. induction l as [|f l IH]; intros s.
  - exists []. done.
  - simpl.
    destruct (h (ApiArchiveFlow (VStr (Flow.id f))) s) as [[b|e] s'].
    + destruct (IH s') as (attempted & Hpre & Hissued & Hok).
      exists (f :: attempted). simpl. split; [by apply prefix_cons|].
      split; [by rewrite Hissued|].
      intros u Hu. f_equal. by apply (Hok u).
    + exists [f]. simpl. split; [apply prefix_cons, prefix_nil|done].
Qed.

(** C3, amended: the create call returns the new flow id only; no version
    group comes back from the store.  Once resolution has ended and the
    create call has answered with a flow id:
    - the version group handed to create is the submitted one when that is
      truthy (the one lookup issued is then the existence check), and
      otherwise the [version_group_id] of the flow the name lookup answered
      with, or the submitted falsy value itself when it answered with none;
    - supersession runs exactly when this identifier is truthy, with this
      identifier and the id create answered with: the calls after the
      create call are the query for the other unarchived versions and one
      archive call per version the query answered with, in order, up to the
      first that raises (all of them when the registration succeeds);
      otherwise nothing follows the create call;
    - a registration that succeeds returns [{id: flow_id}]. *)
Theorem create_flow_supersession_gate
    {S : Type} (h : @handler S) (s s2 : S) (input : gmap string pyval)
    (sf p g : pyval) (isnew : bool) (flow_id : string) :
  input !! "serialized_flow" = Some sf ->
  input !! "project_id" = Some p ->
  is_none p = false ->
  let v := get input "version_group_id" VNone in
  let r0 := run h (resolve_version_group p sf v) s in
  let args :=
    {| c_project_id := p;
       c_serialized_flow := sf;
       c_version_group_id := g;
       c_set_schedule_active := get input "set_schedule_active" (VBool true);
       c_description := get input "description" VNone;
       c_idempotency_key := get input "idempotency_key" VNone |} in
  let r := run h (resolve_create_flow input) s in
  let versions :=
    match h (FlowGetOtherUnarchived g flow_id) s2 with
    | (Ok versions, _) => versions
    | (Err _, _) => []
    end in
  ended r0 = Ok (g, isnew) ->
  h (ApiCreateFlow args) (store_after r0) = (Ok flow_id, s2) ->
  (if truthy v
   then g = v /\ issued r0 = [FlowFirstByVersionGroup v]
   else exists d,
          sf = VDict d /\
          issued r0 = [FlowFirstByProjectName p (get d "name" VNone)] /\
          match (h (FlowFirstByProjectName p (get d "name" VNone)) s).1 with
          | Ok (Some flow) => g = VStr (Flow.version_group_id flow)
          | Ok None => g = v
          | Err _ => False
          end) /\
  exists attempted : list Flow.t,
    attempted `prefix_of` versions /\
    issued r =
      (issued r0 ++
       ApiCreateFlow args ::
       if truthy g
       then FlowGetOtherUnarchived g flow_id :: (archive_call <$> attempted)
       else [])%list /\
    forall out, ended r = Ok out ->
      out = {[ "id" := VStr flow_id ]} /\
      (truthy g = true -> attempted = versions).
Proof.
  intros Hsf Hp Hnone v r0 args r versions Hres Hcreate. split.
  - revert Hres. subst r0. unfold resolve_version_group.
    destruct (truthy v) eqn:Hv; simpl.
    + destruct (h (FlowFirstByVersionGroup v) s) as [[[f|]|e] s'];
        simpl; [| |done]; by intros [= <- _].
    + destruct sf as [| | |d]; simpl; try done.
      intros Hres. exists d. split; [done|].
      destruct (h (FlowFirstByProjectName p (get d "name" VNone)) s)
        as [[[f|]|e] s']; simpl in *; [| |done].
      * by injection Hres as <- _.
      * by injection Hres as <- _.
  - subst r.
    rewrite (run_create_flow_validated h s input sf p Hsf Hp Hnone).
    cbn zeta. fold v r0. rewrite Hres. cbn [fst]. fold args.
    rewrite Hcreate. cbn [ended store_after issued].
    subst versions. unfold archive_other_versions.
    destruct (truthy g).
    + cbn [run await bind].
      destruct (h (FlowGetOtherUnarchived g flow_id) s2)
        as [[l|e] s3].
      * destruct (archive_versions_attempts h l s3)
          as (attempted & Hpre & Hissued & Hok).
        exists attempted. cbn [run bind ended store_after issued].
        split; [done|]. split; [by rewrite Hissued|].
        intros out Hout.
        destruct (ended (run h (archive_versions l) s3)) as [u|e] eqn:Hend;
          [|done].
        injection Hout as <-. split; [done|]. intros _. by apply (Hok u).
      * exists []. cbn [ended issued]. split; [done|]. split; [done|].
        by intros out.
    + exists []. cbn [run ended issued]. split; [apply prefix_nil|].
      split; [done|]. by intros out [= <-].
Qed.

Lemma create_flow_supersession_gate_witness :
  let v := get etl_submission "version_group_id" VNone in
  let sf := VDict {[ "name" := VStr "etl" ]} in
  let r0 := run store_handler
              (resolve_version_group (VStr "P1") sf v) scenario_store in
  let args :=
    {| c_project_id := VStr "P1";
       c_serialized_flow := sf;
       c_version_group_id := VStr "G1";
       c_set_schedule_active :=
         get etl_submission "set_schedule_active" (VBool true);
       c_description := get etl_submission "description" VNone;
       c_idempotency_key := get etl_submission "idempotency_key" VNone |} in
  let s2 := (store_handler (ApiCreateFlow args) scenario_store).2 in
  let r := run store_handler (resolve_create_flow etl_submission)
             scenario_store in
  let versions :=
    match store_handler (FlowGetOtherUnarchived (VStr "G1") "fff") s2 with
    | (Ok versions, _) => versions
    | (Err _, _) => []
    end in
  etl_submission !! "serialized_flow" = Some sf /\
  etl_submission !! "project_id" = Some (VStr "P1") /\
  is_none (VStr "P1") = false /\
  ended r0 = Ok (VStr "G1", false) /\
  store_handler (ApiCreateFlow args) (store_after r0) = (Ok "fff", s2) /\
  (if truthy v
   then VStr "G1" = v /\ issued r0 = [FlowFirstByVersionGroup v]
   else exists d,
          sf = VDict d /\
          issued r0 =
            [FlowFirstByProjectName (VStr "P1") (get d "name" VNone)] /\
          match (store_handler
                   (FlowFirstByProjectName (VStr "P1")
                      (get d "name" VNone)) scenario_store).1 with
          | Ok (Some flow) => VStr "G1" = VStr (Flow.version_group_id flow)
          | Ok None => VStr "G1" = v
          | Err _ => False
          end) /\
  exists attempted : list Flow.t,
    attempted `prefix_of` versions /\
    issued r =
      (issued r0 ++
       ApiCreateFlow args ::
       if truthy (VStr "G1")
       then FlowGetOtherUnarchived (VStr "G1") "fff"
            :: (archive_call <$> attempted)
       else [])%list /\
    forall out, ended r = Ok out ->
      out = {[ "id" := VStr "fff" ]} /\
      (truthy (VStr "G1") = true -> attempted = versions).
Proof.
  cbn zeta.
  split; [reflexivity|]. split; [reflexivity|]. split; [reflexivity|].
  split; [reflexivity|]. split; [reflexivity|].
  apply (create_flow_supersession_gate store_handler scenario_store _
           etl_submission (VDict {[ "name" := VStr "etl" ]}) (VStr "P1")
           (VStr "G1") false "fff").
  - reflexivity.
  - reflexivity.
  - reflexivity.
  - reflexivity.
  - reflexivity.
Defined.



